(** * process_pr_data.py: extraction and merge of per-agent PR data

    A shallow embedding of [src/process_pr_data.py].

    - The values that [ijson.kvitems] hands to the script are Python
      objects built from JSON; they are the inductive [pyval].  JSON
      numbers are the integers (GitHub's line counts); non-integer
      numbers are outside the model.
    - A Python exception is a value of [exn]; code that may raise returns
      [result].
    - [ijson.kvitems(f, '')] is a library generator: it is modelled by what
      the script can observe of it, the pairs it yields in document order
      and the way it stops ([kvstream]).
    - A path that does not exist is [None]; the directory of one agent is
      the record [agent_dir].
    - The dictionary [pr_loc_data] is a [gmap] from PR_ID to [Loc.t].
    - Of the lines printed, those of [main] are kept; the progress lines of
      [process_agent_data] and of [tqdm] are not modelled.
    - A string is the sequence of its characters. *)

From Stdlib Require Import ZArith List String Ascii Lia.
From stdpp Require Import base option list gmap strings pretty.

Import ListNotations.
Local Open Scope Z_scope.

(** ** Python values and exceptions *)

#[warnings="-register-all"]
Inductive pyval : Type :=
| PyNone
| PyBool (b : bool)
| PyInt (z : Z)
| PyStr (s : string)
| PyList (l : list pyval)
| PyDict (d : list (string * pyval)).

(** The exception classes the script can meet; every one of them derives
    from [Exception], and [IncompleteJSONError] derives from [JSONError]. *)
Inductive exn : Type :=
| IncompleteJSONError
| JSONError
| TypeError
| AttributeError
| KeyError
| OSError.

Inductive result (A : Type) : Type :=
| Ok (a : A)
| Raise (e : exn).
Arguments Ok {A} a.
Arguments Raise {A} e.

Definition bind {A B : Type} (r : result A) (k : A -> result B) : result B :=
  match r with
  | Ok a => k a
  | Raise e => Raise e
  end.

Declare Scope py_scope.
Delimit Scope py_scope with py.
Notation "x <- r ;; k" := (bind r (fun x => k))
  (at level 100, r at next level, right associativity) : py_scope.
Local Open Scope py_scope.

(** ** Strings *)

(** [s.startswith(p)] *)
Fixpoint starts_with (p s : string) : bool :=
  match p, s with
  | EmptyString, _ => true
  | String a p', String b s' => if Ascii.eqb a b then starts_with p' s' else false
  | String _ _, EmptyString => false
  end.

(** [p in s] for two strings: [p] occurs in [s] as a substring. *)
Fixpoint occurs_in (p s : string) : bool :=
  starts_with p s ||
  match s with
  | EmptyString => false
  | String _ s' => occurs_in p s'
  end.

(** [s.replace(old, new)] for a non-empty [old]: the occurrences of [old]
    are found from left to right, without overlap, and each is replaced.
    [skip] counts the characters of a matched occurrence still to drop. *)
Fixpoint replace_from (old new : string) (skip : nat) (s : string) : string :=
  match s with
  | EmptyString => EmptyString
  | String c s' =>
      match skip with
      | S k => replace_from old new k s'
      | O =>
          if starts_with old s
          then new +:+ replace_from old new (Nat.pred (String.length old)) s'
          else String c (replace_from old new O s')
      end
  end.

(** [s.replace(old, new)] with an empty [old] puts [new] before every
    character and at the end. *)
Fixpoint intersperse_new (new s : string) : string :=
  match s with
  | EmptyString => new
  | String c s' => new +:+ String c (intersperse_new new s')
  end.

Definition str_replace (old new s : string) : string :=
  match old with
  | EmptyString => intersperse_new new s
  | String _ _ => replace_from old new O s
  end.

(** [pr_id = pr_filename.replace('.json', '')] (lines 22 and 89). *)
Definition pr_id_of (pr_filename : string) : string :=
  str_replace ".json" "" pr_filename.

(** ** Built-in operations on Python values *)

(** Truth value of an object, as [not] and [or] test it. *)
Definition truthy (v : pyval) : bool :=
  match v with
  | PyNone => false
  | PyBool b => b
  | PyInt z => negb (z =? 0)
  | PyStr s => negb (String.eqb s "")
  | PyList l => match l with [] => false | _ :: _ => true end
  | PyDict d => match d with [] => false | _ :: _ => true end
  end.

(** A dict is listed by the members of the JSON object in document order;
    the builder assigns [d[k] = v] for each, so the last member of a key
    gives its value. *)
Fixpoint dict_lookup (k : string) (d : list (string * pyval)) : option pyval :=
  match d with
  | [] => None
  | (k', v) :: d' =>
      match dict_lookup k d' with
      | Some w => Some w
      | None => if String.eqb k k' then Some v else None
      end
  end.

(** The keys of a dict, each once, in the order of first insertion. *)
Fixpoint dict_keys (seen : list string) (d : list (string * pyval)) : list string :=
  match d with
  | [] => []
  | (k, _) :: d' =>
      if existsb (String.eqb k) seen then dict_keys seen d'
      else k :: dict_keys (k :: seen) d'
  end.

(** [obj.get(key, default)]: a method of dicts only. *)
Definition py_get (obj : pyval) (key : string) (dflt : pyval) : result pyval :=
  match obj with
  | PyDict d => Ok (default dflt (dict_lookup key d))
  | _ => Raise AttributeError
  end.

(** [obj[key]] for a string [key]: a dict gives the value or [KeyError];
    a list or a string wants an integer index; the other objects are not
    subscriptable. *)
Definition py_getitem (obj : pyval) (key : string) : result pyval :=
  match obj with
  | PyDict d =>
      match dict_lookup key d with
      | Some v => Ok v
      | None => Raise KeyError
      end
  | _ => Raise TypeError
  end.

Definition is_str (k : string) (v : pyval) : bool :=
  match v with
  | PyStr s => String.eqb k s
  | _ => false
  end.

(** [key in obj] for a string [key]: a key of a dict, an element of a
    list, a substring of a string; the other objects are no containers. *)
Definition py_in (key : string) (obj : pyval) : result bool :=
  match obj with
  | PyDict d => Ok (bool_decide (is_Some (dict_lookup key d)))
  | PyList l => Ok (existsb (is_str key) l)
  | PyStr s => Ok (occurs_in key s)
  | _ => Raise TypeError
  end.

(** The elements that [for x in obj] visits: those of a list, the keys of
    a dict, the characters of a string; the other objects are not
    iterable. *)
Definition py_iter (obj : pyval) : result (list pyval) :=
  match obj with
  | PyList l => Ok l
  | PyDict d => Ok (map PyStr (dict_keys [] d))
  | PyStr s => Ok (map (fun c => PyStr (String c EmptyString)) (list_ascii_of_string s))
  | _ => Raise TypeError
  end.

(** [total += x] for an integer [total]: [bool] is a subclass of [int];
    anything else that JSON can hold does not add to an integer. *)
Definition py_add_int (total : Z) (x : pyval) : result Z :=
  match x with
  | PyInt z => Ok (total + z)
  | PyBool b => Ok (total + (if b then 1 else 0))
  | _ => Raise TypeError
  end.

(** ** The files of one agent *)

(** What the script observes of [ijson.kvitems(f, '')]: the pairs yielded,
    in document order, and then either the end of the iteration ([None])
    or an exception raised by the parser. *)
Record kvstream : Type := {
  yielded : list (string * pyval);
  ending : option exn
}.

(** What [pd.read_csv] and the three lines after it (66-70) make of the
    task-type file: the dictionary from [id] to [type], or an exception. *)
Definition csv_load : Type := result (gmap string string).

(** The five files looked up under [agent_path]; [None] when
    [os.path.exists] is false. *)
Record agent_dir : Type := {
  gpt_conventional_commits_csv : option csv_load;
  pr_commit_details_json : option kvstream;
  pr_comments_json : option kvstream;
  pr_review_comments_json : option kvstream;
  pr_reviews_json : option kvstream
}.

(** ** The dictionaries the script builds *)

(** An element of [extracted_entries] (lines 37-43). *)
Module Entry.
Record t : Type := {
  PR_ID : string;
  Comment_Body : pyval;
  User_Login : pyval;
  User_Type : pyval;
  Comment_Category : string
}.
End Entry.

(** A value of [pr_loc_data] (lines 96-100). *)
Module Loc.
Record t : Type := {
  Total_LOC_Change : Z;
  Additions : Z;
  Deletions : Z
}.
End Loc.

(** An element of [merged_output] (lines 130-141), a row of the CSV. *)
Module Row.
Record t : Type := {
  Agent : string;
  PR_ID : string;
  Task_Type : string;
  Total_LOC_Change : Z;
  Additions : Z;
  Deletions : Z;
  Comment_Category : string;
  Comment_Body : pyval;
  User_Login : pyval;
  User_Type : pyval
}.
End Row.

Section Script.

(** [repr] of a list or of a dict belongs to the Python runtime, not to
    the script: it is a parameter of the model. *)
Variable py_repr : pyval -> string.

(** What an f-string field [{v}] inserts for [v]. *)
Definition py_str (v : pyval) : string :=
  match v with
  | PyNone => "None"
  | PyBool b => if b then "True" else "False"
  | PyInt z => pretty z
  | PyStr s => s
  | PyList _ | PyDict _ => py_repr v
  end.

(** ** [_extract_comments_with_details] *)

(** Lines 24-31 of the inner loop: the comment body of one [entry]. *)
Definition entry_body (comment_category : string) (entry : pyval) : result pyval :=
  body <- py_get entry "body" (PyStr "");;
  if String.eqb comment_category "Review_Summary" then
    if negb (truthy body) then
      state <- py_get entry "state" PyNone;;
      if truthy state then
        state <- py_getitem entry "state";;
        Ok (PyStr ("Review State: " +:+ py_str state))
      else Ok body
    else Ok body
  else Ok body.

(** The body of the inner loop (lines 24-43): the dictionary appended for
    one [entry], or the exception that one of its statements raises. *)
Definition extract_entry (comment_category pr_id : string) (entry : pyval)
  : result Entry.t :=
  body <- entry_body comment_category entry;;
  user <- py_get entry "user" PyNone;;
  let user := if truthy user then user else PyDict [] in
  user_login <- py_get user "login" (PyStr "N/A");;
  user_type <- py_get user "type" (PyStr "N/A");;
  Ok {| Entry.PR_ID := pr_id;
        Entry.Comment_Body := body;
        Entry.User_Login := user_login;
        Entry.User_Type := user_type;
        Entry.Comment_Category := comment_category |}.

(** The inner loop (line 23) over the elements of [entries_list].  The
    list [extracted_entries] is mutated in place, so what was appended
    before an exception stays: the loop returns the list together with the
    exception that stopped it, if any. *)
Fixpoint extract_entries (comment_category pr_id : string) (entries : list pyval)
    (extracted_entries : list Entry.t) : list Entry.t * option exn :=
  match entries with
  | [] => (extracted_entries, None)
  | entry :: entries' =>
      match extract_entry comment_category pr_id entry with
      | Ok e => extract_entries comment_category pr_id entries' (extracted_entries ++ [e])
      | Raise x => (extracted_entries, Some x)
      end
  end.

(** The outer loop (line 21) over the pairs of the stream; [ending] is
    what the generator does once its pairs are used up. *)
Fixpoint extract_items (comment_category : string) (items : list (string * pyval))
    (ending : option exn) (extracted_entries : list Entry.t)
  : list Entry.t * option exn :=
  match items with
  | [] => (extracted_entries, ending)
  | (pr_filename, entries_list) :: items' =>
      let pr_id := pr_id_of pr_filename in
      match py_iter entries_list with
      | Raise x => (extracted_entries, Some x)
      | Ok entries =>
          match extract_entries comment_category pr_id entries extracted_entries with
          | (extracted_entries', None) =>
              extract_items comment_category items' ending extracted_entries'
          | (extracted_entries', Some x) => (extracted_entries', Some x)
          end
      end
  end.

(** Lines 10-49.  Both [except] clauses print a line and fall through to
    the [return]; every exception is an instance of [Exception]. *)
Definition _extract_comments_with_details (file : option kvstream)
    (comment_category : string) : list Entry.t :=
  match file with
  | None => []
  | Some f =>
      match extract_items comment_category (yielded f) (ending f) [] with
      | (extracted_entries, None) => extracted_entries
      | (extracted_entries, Some IncompleteJSONError) => extracted_entries
      | (extracted_entries, Some _) => extracted_entries
      end
  end.

(** ** [process_agent_data] *)

(** Lines 63-75: [pr_task_map] stays [{}] when the file is missing or when
    loading it raises. *)
Definition load_task_types (file : option csv_load) : gmap string string :=
  match file with
  | None => ∅
  | Some (Raise _) => ∅
  | Some (Ok task_map) => task_map
  end.

(** Lines 92-95: the loop over the commits of one pull request, with its
    two running totals. *)
Fixpoint sum_commit_stats (commits : list pyval) (total_additions total_deletions : Z)
  : result (Z * Z) :=
  match commits with
  | [] => Ok (total_additions, total_deletions)
  | commit :: commits' =>
      has_stats <- py_in "stats" commit;;
      not_none <- (if has_stats : bool then
                     stats <- py_getitem commit "stats";;
                     Ok (match stats with PyNone => false | _ => true end)
                   else Ok false);;
      if not_none : bool then
        stats <- py_getitem commit "stats";;
        additions <- py_get stats "additions" (PyInt 0);;
        total_additions <- py_add_int total_additions additions;;
        stats <- py_getitem commit "stats";;
        deletions <- py_get stats "deletions" (PyInt 0);;
        total_deletions <- py_add_int total_deletions deletions;;
        sum_commit_stats commits' total_additions total_deletions
      else sum_commit_stats commits' total_additions total_deletions
  end.

(** Lines 90-100: the value stored for one pair of the stream. *)
Definition loc_of_commits (commits : pyval) : result Loc.t :=
  commit_list <- py_iter commits;;
  totals <- sum_commit_stats commit_list 0 0;;
  Ok {| Loc.Total_LOC_Change := fst totals + snd totals;
        Loc.Additions := fst totals;
        Loc.Deletions := snd totals |}.

(** Lines 87-100: the loop over the pairs, assigning [pr_loc_data[pr_id]]. *)
Fixpoint calc_loc (items : list (string * pyval)) (pr_loc_data : gmap string Loc.t)
  : result (gmap string Loc.t) :=
  match items with
  | [] => Ok pr_loc_data
  | (pr_filename, commits) :: items' =>
      let pr_id := pr_id_of pr_filename in
      loc <- loc_of_commits commits;;
      calc_loc items' (<[pr_id := loc]> pr_loc_data)
  end.

(** Lines 80-103.  There is no [try] here: an exception of the loop body
    or of the generator leaves [process_agent_data]. *)
Definition load_loc (file : option kvstream) : result (gmap string Loc.t) :=
  match file with
  | None => Ok ∅
  | Some f =>
      pr_loc_data <- calc_loc (yielded f) ∅;;
      match ending f with
      | None => Ok pr_loc_data
      | Some x => Raise x
      end
  end.

Definition zero_loc : Loc.t :=
  {| Loc.Total_LOC_Change := 0; Loc.Additions := 0; Loc.Deletions := 0 |}.

(** The body of the merging loop (lines 127-141). *)
Definition merge_entry (agent_name : string) (pr_task_map : gmap string string)
    (pr_loc_data : gmap string Loc.t) (entry : Entry.t) : Row.t :=
  let pr_id := Entry.PR_ID entry in
  let loc_info := default zero_loc (pr_loc_data !! pr_id) in
  {| Row.Agent := agent_name;
     Row.PR_ID := pr_id;
     Row.Task_Type := default "N/A" (pr_task_map !! pr_id);
     Row.Total_LOC_Change := Loc.Total_LOC_Change loc_info;
     Row.Additions := Loc.Additions loc_info;
     Row.Deletions := Loc.Deletions loc_info;
     Row.Comment_Category := Entry.Comment_Category entry;
     Row.Comment_Body := Entry.Comment_Body entry;
     Row.User_Login := Entry.User_Login entry;
     Row.User_Type := Entry.User_Type entry |}.

(** Lines 105-120: the three extractions, in this order. *)
Definition all_comments_and_reviews (agent : agent_dir) : list Entry.t :=
  _extract_comments_with_details (pr_comments_json agent) "PR_Comment"
  ++ _extract_comments_with_details (pr_review_comments_json agent) "Review_Comment"
  ++ _extract_comments_with_details (pr_reviews_json agent) "Review_Summary".

(** Lines 51-143. *)
Definition process_agent_data (agent_name : string) (agent : agent_dir)
  : result (list Row.t) :=
  let pr_task_map := load_task_types (gpt_conventional_commits_csv agent) in
  pr_loc_data <- load_loc (pr_commit_details_json agent);;
  let merged_output :=
    map (merge_entry agent_name pr_task_map pr_loc_data) (all_comments_and_reviews agent) in
  Ok merged_output.

End Script.

(** ** [main] *)

Definition BASE_DIR : string := "AIDev/aidev-pop".
Definition OUTPUT_CSV : string := "agent_pr_allcomments_with_loc.csv".

(** An entry of [os.listdir(BASE_DIR)]: [os.path.isdir] tells a directory,
    with the files of an agent in it, from anything else. *)
Inductive dir_entry : Type :=
| File
| Directory (agent : agent_dir).

(** What a run of [main] that returns leaves behind: the lines [main]
    itself printed (the progress lines of [process_agent_data] are left
    out), and the rows handed to [to_csv] if [OUTPUT_CSV] was written. *)
Record run : Type := {
  printed : list string;
  output_csv : option (list Row.t)
}.

Definition msg_start : string :=
  "Starting data processing for PR comments and LOC changes.".
Definition msg_no_base_dir : string :=
  "Error: Base directory '" +:+ BASE_DIR +:+ "' not found. Please ensure the path is correct.".
Definition msg_no_agent_dirs : string :=
  "No agent directories found in '" +:+ BASE_DIR +:+ "'. Exiting.".
Definition msg_no_data : string :=
  "No data processed. Output CSV not created.".
Definition msg_complete : string := "Data processing complete.".

Section Main.

Variable py_repr : pyval -> string.

(** Line 154: the names that are directories, in listing order. *)
Fixpoint agent_dirs_of (listing : list (string * dir_entry)) : list (string * agent_dir) :=
  match listing with
  | [] => []
  | (d, File) :: listing' => agent_dirs_of listing'
  | (d, Directory agent) :: listing' => (d, agent) :: agent_dirs_of listing'
  end.

(** Lines 161-165: an exception of [process_agent_data] is not caught. *)
Fixpoint process_agents (agent_dirs : list (string * agent_dir))
    (all_data : list Row.t) (out : list string) : result (list Row.t * list string) :=
  match agent_dirs with
  | [] => Ok (all_data, out)
  | (agent_name, agent) :: agent_dirs' =>
      let agent_path := BASE_DIR +:+ "/" +:+ agent_name in
      let out := out ++ ["Processing data for agent: " +:+ agent_name
                           +:+ " from '" +:+ agent_path +:+ "'"] in
      agent_processed_data <- process_agent_data py_repr agent_name agent;;
      process_agents agent_dirs' (all_data ++ agent_processed_data) out
  end.

(** Lines 145-175; [base] is [None] when [BASE_DIR] does not exist. *)
Definition main (base : option (list (string * dir_entry))) : result run :=
  let out := [msg_start] in
  match base with
  | None => Ok {| printed := out ++ [msg_no_base_dir]; output_csv := None |}
  | Some listing =>
      let agent_dirs := agent_dirs_of listing in
      match agent_dirs with
      | [] => Ok {| printed := out ++ [msg_no_agent_dirs]; output_csv := None |}
      | _ :: _ =>
          let out := out ++ ["Found " +:+ pretty (length agent_dirs)
                               +:+ " agent directories in '" +:+ BASE_DIR +:+ "'."] in
          r <- process_agents agent_dirs [] out;;
          let all_data := fst r in
          let out := snd r in
          match all_data with
          | _ :: _ =>
              Ok {| printed := out ++ ["Successfully processed data for "
                                         +:+ pretty (length agent_dirs) +:+ " agents.";
                                       "Output saved to '" +:+ OUTPUT_CSV +:+ "'. Total rows: "
                                         +:+ pretty (length all_data);
                                       msg_complete];
                    output_csv := Some all_data |}
          | [] =>
              Ok {| printed := out ++ [msg_no_data; msg_complete]; output_csv := None |}
          end
      end
  end.

End Main.

(** ** Sample inputs *)

(** The samples below format no list and no dict, so that any [py_repr]
    does for them. *)
Definition no_repr : pyval -> string := fun _ => "".

(** A document that is parsed to its end. *)
Definition complete (items : list (string * pyval)) : option kvstream :=
  Some {| yielded := items; ending := None |}.

(** The agent of the round-trip scenario of the specification. *)
Definition alpha : agent_dir :=
  {| gpt_conventional_commits_csv := Some (Ok {[ "42" := "bugfix" ]});
     pr_commit_details_json :=
       complete [("42.json", PyList [PyDict [("stats",
                    PyDict [("additions", PyInt 10); ("deletions", PyInt 2)])]])];
     pr_comments_json :=
       complete [("42.json", PyList [PyDict [("body", PyStr "hi");
                    ("user", PyDict [("login", PyStr "bob"); ("type", PyStr "User")])]])];
     pr_review_comments_json := None;
     pr_reviews_json := None |}.

(** ** Definitions used to state the properties *)

(** The PR_ID in the words of the specification: the file name without
    a trailing [suffix], and the file name itself when it ends otherwise. *)
Fixpoint remove_suffix (suffix s : string) : string :=
  if String.eqb s suffix then EmptyString
  else match s with
       | EmptyString => EmptyString
       | String c s' => String c (remove_suffix suffix s')
       end.

Definition spec_pr_id (pr_filename : string) : string :=
  remove_suffix ".json" pr_filename.

(** The non-null [stats] field of a commit object, if it has one. *)
Definition commit_stats (commit : pyval) : option pyval :=
  match commit with
  | PyDict d =>
      match dict_lookup "stats" d with
      | Some PyNone => None
      | o => o
      end
  | _ => None
  end.

(** A count of a [stats] object, 0 by default. *)
Definition stat_count (key : string) (stats : pyval) : Z :=
  match stats with
  | PyDict d =>
      match dict_lookup key d with
      | Some (PyInt z) => z
      | _ => 0
      end
  | _ => 0
  end.

(** The sum of the specification: over the commits with a non-null
    [stats], of the count [key] of it. *)
Fixpoint spec_sum (key : string) (commits : list pyval) : Z :=
  match commits with
  | [] => 0
  | commit :: commits' =>
      match commit_stats commit with
      | Some stats => stat_count key stats + spec_sum key commits'
      | None => spec_sum key commits'
      end
  end.

(** A count that is absent or an integer. *)
Definition count_ok (o : option pyval) : bool :=
  match o with
  | None | Some (PyInt _) => true
  | Some _ => false
  end.

(** A commit object as the commit-details file has them: an object whose
    [stats], if there and not null, is an object with integer counts. *)
Definition commit_ok (commit : pyval) : bool :=
  match commit with
  | PyDict d =>
      match dict_lookup "stats" d with
      | None | Some PyNone => true
      | Some (PyDict st) =>
          count_ok (dict_lookup "additions" st) && count_ok (dict_lookup "deletions" st)
      | Some _ => false
      end
  | _ => false
  end.

(** The entries of a comments file in input order: the keys in document
    order, and under each key the elements of its value in their order. *)
Definition input_entries (file : option kvstream) : list (string * pyval) :=
  match file with
  | None => []
  | Some f =>
      flat_map (fun kv => map (pair (fst kv))
                            (match py_iter (snd kv) with
                             | Ok entries => entries
                             | Raise _ => []
                             end))
               (yielded f)
  end.

(** The body that the specification gives a review summary: the state
    line when the body is empty (absent, null or falsy) and the state is
    not, the body otherwise. *)
Definition review_summary_body (py_repr : pyval -> string)
    (d : list (string * pyval)) : pyval :=
  let body := default (PyStr "") (dict_lookup "body" d) in
  match dict_lookup "state" d with
  | Some state =>
      if negb (truthy body) && truthy state
      then PyStr ("Review State: " +:+ py_str py_repr state)
      else body
  | None => body
  end.

(** The dictionary that an input entry gives, when its extraction does
    not raise, and the row merged from it. *)
Definition entry_of_input (py_repr : pyval -> string) (comment_category : string)
    (kv : string * pyval) : option Entry.t :=
  match extract_entry py_repr comment_category (pr_id_of (fst kv)) (snd kv) with
  | Ok e => Some e
  | Raise _ => None
  end.

Definition row_of_input (py_repr : pyval -> string) (agent_name : string)
    (pr_task_map : gmap string string) (pr_loc_data : gmap string Loc.t)
    (comment_category : string) (kv : string * pyval) : option Row.t :=
  option_map (merge_entry agent_name pr_task_map pr_loc_data)
             (entry_of_input py_repr comment_category kv).

(** The rows are those of the first [n] input entries, in their order. *)
Definition in_input_order (py_repr : pyval -> string) (agent_name : string)
    (pr_task_map : gmap string string) (pr_loc_data : gmap string Loc.t)
    (comment_category : string) (file : option kvstream) (rows : list Row.t) : Prop :=
  exists n : nat,
    map Some rows =
    map (row_of_input py_repr agent_name pr_task_map pr_loc_data comment_category)
        (take n (input_entries file)).

Definition loc_consistent (loc : Loc.t) : Prop :=
  Loc.Total_LOC_Change loc = Loc.Additions loc + Loc.Deletions loc.

Definition row_consistent (r : Row.t) : Prop :=
  Row.Total_LOC_Change r = Row.Additions r + Row.Deletions r.

(** There is nothing to do: no base directory, or a listing whose agent
    directories (if any) are all processed without an exception and give
    no row. *)
Definition nothing_to_do (py_repr : pyval -> string)
    (base : option (list (string * dir_entry))) : Prop :=
  match base with
  | None => True
  | Some listing =>
      Forall (fun na => process_agent_data py_repr (fst na) (snd na) = Ok [])
             (agent_dirs_of listing)
  end.

(** The line that tells why nothing was written. *)
Definition nothing_to_do_message (base : option (list (string * dir_entry))) : string :=
  match base with
  | None => msg_no_base_dir
  | Some listing =>
      match agent_dirs_of listing with
      | [] => msg_no_agent_dirs
      | _ :: _ => msg_no_data
      end
  end.

(** A commit-details file cut off after its first pair: the parser
    yields the pair and then raises. *)
Definition truncated_details : option kvstream :=
  Some {| yielded := [("1.json", PyList [PyDict [("stats",
                         PyDict [("additions", PyInt 3); ("deletions", PyInt 1)])]])];
          ending := Some IncompleteJSONError |}.

(** An agent whose commit details are truncated. *)
Definition beta : agent_dir :=
  {| gpt_conventional_commits_csv := None;
     pr_commit_details_json := truncated_details;
     pr_comments_json :=
       complete [("1.json", PyList [PyDict [("body", PyStr "ok")]])];
     pr_review_comments_json := None;
     pr_reviews_json := None |}.

(** An agent with a comment on a pull request that has no commit details
    and no task type. *)
Definition gamma : agent_dir :=
  {| gpt_conventional_commits_csv := None;
     pr_commit_details_json := pr_commit_details_json alpha;
     pr_comments_json :=
       complete [("42.json", PyList [PyDict [("body", PyStr "hi")]]);
                 ("7.json", PyList [PyDict [("body", PyStr "no commits")]])];
     pr_review_comments_json := None;
     pr_reviews_json := None |}.

(** The two rows of [gamma]. *)
Definition gamma_row_42 : Row.t :=
  {| Row.Agent := "gamma"; Row.PR_ID := "42"; Row.Task_Type := "N/A";
     Row.Total_LOC_Change := 12; Row.Additions := 10; Row.Deletions := 2;
     Row.Comment_Category := "PR_Comment"; Row.Comment_Body := PyStr "hi";
     Row.User_Login := PyStr "N/A"; Row.User_Type := PyStr "N/A" |}.

Definition gamma_row_7 : Row.t :=
  {| Row.Agent := "gamma"; Row.PR_ID := "7"; Row.Task_Type := "N/A";
     Row.Total_LOC_Change := 0; Row.Additions := 0; Row.Deletions := 0;
     Row.Comment_Category := "PR_Comment"; Row.Comment_Body := PyStr "no commits";
     Row.User_Login := PyStr "N/A"; Row.User_Type := PyStr "N/A" |}.

(** Commits with and without [stats]. *)
Definition sample_commits : list pyval :=
  [ PyDict [("sha", PyStr "a"); ("stats", PyDict [("additions", PyInt 10); ("deletions", PyInt 2)])];
    PyDict [("sha", PyStr "b")];
    PyDict [("stats", PyNone)];
    PyDict [("stats", PyDict [("additions", PyInt 5)])] ].

(** The commits of two keys with the same PR_ID. *)
Definition commits_12 : pyval :=
  PyList [PyDict [("stats", PyDict [("additions", PyInt 10); ("deletions", PyInt 2)])]].

Definition commits_2 : pyval :=
  PyList [PyDict [("stats", PyDict [("additions", PyInt 1); ("deletions", PyInt 1)])]].

(** An agent with entries in the three categories, under two keys. *)
Definition delta : agent_dir :=
  {| gpt_conventional_commits_csv := None;
     pr_commit_details_json := None;
     pr_comments_json :=
       complete [("2.json", PyList [PyDict [("body", PyStr "a")]; PyDict [("body", PyStr "b")]]);
                 ("1.json", PyList [PyDict [("body", PyStr "c")]])];
     pr_review_comments_json :=
       complete [("1.json", PyList [PyDict [("body", PyStr "d")]])];
     pr_reviews_json :=
       complete [("2.json", PyList [PyDict [("state", PyStr "APPROVED")]])] |}.

(** An agent directory that gives no row. *)
Definition epsilon : agent_dir :=
  {| gpt_conventional_commits_csv := None;
     pr_commit_details_json := pr_commit_details_json alpha;
     pr_comments_json := None;
     pr_review_comments_json := complete [];
     pr_reviews_json := None |}.

(** ** Definitions used to state further properties *)

(** The object whose [login] and [type] are read (lines 33-35): the [user]
    of the entry when it is an object, the empty object when [user] is
    absent or falsy; [None] when [user] is truthy and no object, so that
    [user.get] raises. *)
Definition user_object (d : list (string * pyval)) : option (list (string * pyval)) :=
  match dict_lookup "user" d with
  | None => Some []
  | Some (PyDict ud) => Some ud
  | Some u => if truthy u then None else Some []
  end.

(** The values in front of the first [None]. *)
Fixpoint until_none {A : Type} (l : list (option A)) : list A :=
  match l with
  | Some a :: l' => a :: until_none l'
  | _ => []
  end.

(** A comments file with the fault of its parser, if any, taken away. *)
Definition without_fault (file : option kvstream) : option kvstream :=
  match file with
  | None => None
  | Some f => complete (yielded f)
  end.

(** What one commit adds to the two running totals (lines 93-95), or the
    exception it raises. *)
Definition commit_delta (commit : pyval) : result (Z * Z) :=
  match commit with
  | PyDict d =>
      match dict_lookup "stats" d with
      | None | Some PyNone => Ok (0, 0)
      | Some (PyDict st) =>
          additions <- py_add_int 0 (default (PyInt 0) (dict_lookup "additions" st));;
          deletions <- py_add_int 0 (default (PyInt 0) (dict_lookup "deletions" st));;
          Ok (additions, deletions)
      | Some _ => Raise AttributeError
      end
  | PyList l => if existsb (is_str "stats") l then Raise TypeError else Ok (0, 0)
  | PyStr s => if occurs_in "stats" s then Raise TypeError else Ok (0, 0)
  | _ => Raise TypeError
  end.

(** The counts of a commit are not negative. *)
Definition count_nonneg (o : option pyval) : bool :=
  match o with
  | Some (PyInt z) => 0 <=? z
  | _ => true
  end.

Definition commit_nonneg (commit : pyval) : bool :=
  match commit_stats commit with
  | Some (PyDict st) =>
      count_nonneg (dict_lookup "additions" st) && count_nonneg (dict_lookup "deletions" st)
  | _ => true
  end.

(** The entry and the row agree on the fields that the merge copies. *)
Definition row_copies_entry (agent_name : string) (e : Entry.t) (r : Row.t) : Prop :=
  Row.Agent r = agent_name /\
  Row.PR_ID r = Entry.PR_ID e /\
  Row.Comment_Category r = Entry.Comment_Category e /\
  Row.Comment_Body r = Entry.Comment_Body e /\
  Row.User_Login r = Entry.User_Login e /\
  Row.User_Type r = Entry.User_Type e.

(** The rows that each agent directory gives, in the order of the listing. *)
Definition rows_per_agent (py_repr : pyval -> string)
    (agent_dirs : list (string * agent_dir)) (rowss : list (list Row.t)) : Prop :=
  Forall2 (fun na rows => process_agent_data py_repr (fst na) (snd na) = Ok rows)
          agent_dirs rowss.

(** ** Further sample inputs *)

(** An entry with a login and no type, one whose [user] is a string, and
    one with a state and no body. *)
Definition entry_of_bob : list (string * pyval) :=
  [("body", PyStr "x"); ("user", PyDict [("login", PyStr "bob")])].

Definition entry_with_user_name : list (string * pyval) :=
  [("body", PyStr "y"); ("user", PyStr "bob")].

Definition entry_with_state : list (string * pyval) :=
  [("state", PyStr "APPROVED")].

(** A comments file whose second entry raises, and one whose second value
    is null. *)
Definition comments_with_fault : kvstream :=
  {| yielded := [("1.json", PyList [PyDict entry_of_bob; PyDict entry_with_user_name;
                                    PyDict entry_of_bob]);
                 ("2.json", PyList [PyDict entry_of_bob])];
     ending := None |}.

Definition comments_with_null : kvstream :=
  {| yielded := [("1.json", PyList [PyDict entry_of_bob]);
                 ("2.json", PyNone);
                 ("3.json", PyList [PyDict entry_of_bob])];
     ending := None |}.

(** Commit details with a key given twice over, and commit details whose
    second value is null. *)
Definition details_of_42_twice : kvstream :=
  {| yielded := [("42.json", commits_12); ("42", commits_2); ("7.json", PyList [])];
     ending := None |}.

Definition zeta : agent_dir :=
  {| gpt_conventional_commits_csv := None;
     pr_commit_details_json :=
       complete [("1.json", commits_12); ("2.json", PyNone); ("3.json", commits_2)];
     pr_comments_json := complete [("1.json", PyList [PyDict entry_of_bob])];
     pr_review_comments_json := None;
     pr_reviews_json := None |}.

(** A base directory with two agents and a plain file, and one with a
    faulty agent in the middle. *)
Definition listing_of_two : list (string * dir_entry) :=
  [("alpha", Directory alpha); ("notes.txt", File); ("delta", Directory delta)].

Definition listing_with_beta : list (string * dir_entry) :=
  [("alpha", Directory alpha); ("beta", Directory beta); ("delta", Directory delta)].

(** * Properties *)

(** ** Examples *)

Example pr_id_of_42 : pr_id_of "42.json" = "42".
Proof. reflexivity. Qed.

Example pr_id_of_plain : pr_id_of "42" = "42".
Proof. reflexivity. Qed.

Example truthy_none : truthy PyNone = false.
Proof. reflexivity. Qed.

Example dict_lookup_last :
  dict_lookup "a" [("a", PyInt 1); ("b", PyInt 2); ("a", PyInt 3)] = Some (PyInt 3).
Proof. reflexivity. Qed.

Example py_in_substring : py_in "stats" (PyStr "no stats here") = Ok true.
Proof. reflexivity. Qed.

Example alpha_round_trip :
  process_agent_data no_repr "alpha" alpha =
  Ok [ {| Row.Agent := "alpha"; Row.PR_ID := "42"; Row.Task_Type := "bugfix";
          Row.Total_LOC_Change := 12; Row.Additions := 10; Row.Deletions := 2;
          Row.Comment_Category := "PR_Comment"; Row.Comment_Body := PyStr "hi";
          Row.User_Login := PyStr "bob"; Row.User_Type := PyStr "User" |} ].
Proof. vm_compute. reflexivity. Qed.

(** ** Strings *)

Lemma starts_with_app (p t : string) : starts_with p (p +:+ t) = true.
Proof.
  induction p as [|a p IH]; simpl; [reflexivity|].
  rewrite Ascii.eqb_refl. exact IH.
Qed.

Lemma starts_with_inv (p s : string) :
  starts_with p s = true -> exists t, s = p +:+ t.
Proof.
  revert s. induction p as [|a p IH]; intros s H.
  - exists s. reflexivity.
  - destruct s as [|b s]; [discriminate|]. cbn [starts_with] in H.
    destruct (Ascii.eqb_spec a b) as [->|]; [|discriminate].
    destruct (IH s H) as [t ->]. exists t. reflexivity.
Qed.

Lemma replace_from_skip (old new p s : string) :
  replace_from old new (String.length p) (p +:+ s) = replace_from old new O s.
Proof. induction p as [|a p IH]; simpl; [reflexivity | exact IH]. Qed.

(** The two equations of [replace] for a non-empty [old]: an occurrence at
    the head is replaced and the scan goes on behind it; a character that
    starts no occurrence is kept. *)
Lemma str_replace_match (c : ascii) (old new t : string) :
  str_replace (String c old) new (String c old +:+ t) =
  new +:+ str_replace (String c old) new t.
Proof.
  pose proof (starts_with_app (String c old) t) as H.
  cbn [str_replace]. change (String c old +:+ t) with (String c (old +:+ t)) in *.
  cbn [replace_from]. rewrite H.
  cbn [String.length Nat.pred]. rewrite replace_from_skip. reflexivity.
Qed.

Lemma str_replace_no_match (c0 c : ascii) (old new s : string) :
  starts_with (String c0 old) (String c s) = false ->
  str_replace (String c0 old) new (String c s) =
  String c (str_replace (String c0 old) new s).
Proof. intros H. cbn [str_replace replace_from]. rewrite H. reflexivity. Qed.

Lemma no_json_straddle (c : ascii) (a b : string) :
  starts_with ".json" (String c a) = false ->
  starts_with ".json" (String c (a +:+ ".json" +:+ b)) = false.
Proof.
  intros Hc.
  destruct (starts_with ".json" (String c (a +:+ ".json" +:+ b))) eqn:E; [|reflexivity].
  apply starts_with_inv in E as [t E]. exfalso.
  injection E as -> E.
  do 4 (destruct a as [|? a]; [discriminate E|]; injection E as -> E).
  vm_compute in Hc. discriminate Hc.
Qed.

Lemma pr_id_of_keeps (a : string) :
  occurs_in ".json" a = false -> pr_id_of a = a.
Proof.
  unfold pr_id_of, str_replace.
  induction a as [|c a IH]; intros H; [reflexivity|].
  change (occurs_in ".json" (String c a))
    with (starts_with ".json" (String c a) || occurs_in ".json" a) in H.
  apply orb_false_elim in H as [Hc Ha].
  cbn [replace_from]. rewrite Hc, (IH Ha). reflexivity.
Qed.

Lemma pr_id_of_first_occurrence (a b : string) :
  occurs_in ".json" a = false ->
  pr_id_of (a +:+ ".json" +:+ b) = a +:+ pr_id_of b.
Proof.
  unfold pr_id_of, str_replace.
  induction a as [|c a IH]; intros H.
  - reflexivity.
  - change (occurs_in ".json" (String c a))
      with (starts_with ".json" (String c a) || occurs_in ".json" a) in H.
    apply orb_false_elim in H as [Hc Ha].
    change (String c a +:+ ".json" +:+ b) with (String c (a +:+ ".json" +:+ b)).
    cbn [replace_from]. rewrite (no_json_straddle c a b Hc), (IH Ha). reflexivity.
Qed.

(** *** The PR_ID of a file name *)

(** C2, as the code has it.  [replace] deletes every occurrence of ".json",
    found from left to right: a file name [a] without an occurrence is its
    own PR_ID, and in [a ++ ".json" ++ b] the first occurrence is deleted
    and the rest [b] is treated the same way.  With [b] empty this is the
    removal of the trailing suffix.  No case raises. *)
Theorem pr_id_of_removes_every_occurrence (a b : string) :
  occurs_in ".json" a = false ->
  pr_id_of a = a /\ pr_id_of (a +:+ ".json" +:+ b) = a +:+ pr_id_of b.
Proof.
  intros H. split; [apply pr_id_of_keeps | apply pr_id_of_first_occurrence]; exact H.
Qed.

(** "42" has no occurrence; "42.json" loses its suffix. *)
Lemma pr_id_of_removes_every_occurrence_witness :
  occurs_in ".json" "42" = false /\
  pr_id_of "42" = "42" /\ pr_id_of "42.json" = "42".
Proof.
  split; [reflexivity|].
  apply (pr_id_of_removes_every_occurrence "42" ""). reflexivity.
Defined.

(** C2 as stated fails: "a.json.bak" does not end in ".json", so it should
    be its own PR_ID, but the occurrence inside it is deleted. *)
Lemma pr_id_of_is_not_suffix_removal :
  spec_pr_id "a.json.bak" = "a.json.bak" /\
  pr_id_of "a.json.bak" <> spec_pr_id "a.json.bak".
Proof. split; [reflexivity | vm_compute; discriminate]. Qed.

(** ** Exceptions *)

Lemma bind_ok {A B : Type} (r : result A) (k : A -> result B) (b : B) :
  bind r k = Ok b -> exists a, r = Ok a /\ k a = Ok b.
Proof. destruct r as [a|e]; simpl; intros H; [eauto | discriminate]. Qed.

Ltac bind_inv H :=
  let a := fresh "a" in
  let Ha := fresh "Ha" in
  apply bind_ok in H as (a & Ha & H).

(** *** The LOC aggregator *)

Lemma loc_of_commits_consistent (commits : pyval) (loc : Loc.t) :
  loc_of_commits commits = Ok loc -> loc_consistent loc.
Proof.
  unfold loc_of_commits. intros H.
  bind_inv H. bind_inv H. injection H as <-. reflexivity.
Qed.

Lemma calc_loc_consistent (items : list (string * pyval)) :
  forall m m' : gmap string Loc.t,
    map_Forall (fun _ => loc_consistent) m ->
    calc_loc items m = Ok m' ->
    map_Forall (fun _ => loc_consistent) m'.
Proof.
  induction items as [|[pr_filename commits] items IH]; intros m m' Hm H.
  - injection H as <-. exact Hm.
  - cbn [calc_loc] in H. bind_inv H.
    apply (IH _ _ (map_Forall_insert_2 _ _ _ _ (loc_of_commits_consistent _ _ Ha) Hm) H).
Qed.

Lemma load_loc_consistent (file : option kvstream) (m : gmap string Loc.t) :
  load_loc file = Ok m -> map_Forall (fun _ => loc_consistent) m.
Proof.
  destruct file as [f|]; cbn [load_loc]; intros H.
  - bind_inv H. destruct (ending f); [discriminate|]. injection H as <-.
    apply (calc_loc_consistent _ _ _ (map_Forall_empty _) Ha).
  - injection H as <-. apply map_Forall_empty.
Qed.

Lemma merge_entry_consistent (agent_name : string) (tasks : gmap string string)
    (locs : gmap string Loc.t) (e : Entry.t) :
  map_Forall (fun _ => loc_consistent) locs ->
  row_consistent (merge_entry agent_name tasks locs e).
Proof.
  intros Hm. unfold row_consistent, merge_entry. cbn.
  destruct (locs !! Entry.PR_ID e) as [loc|] eqn:E; cbn.
  - apply (Hm _ _ E).
  - reflexivity.
Qed.

Lemma process_agent_data_ok (py_repr : pyval -> string) (agent_name : string)
    (agent : agent_dir) (rows : list Row.t) :
  process_agent_data py_repr agent_name agent = Ok rows ->
  exists locs,
    load_loc (pr_commit_details_json agent) = Ok locs /\
    rows = map (merge_entry agent_name
                  (load_task_types (gpt_conventional_commits_csv agent)) locs)
               (all_comments_and_reviews py_repr agent).
Proof.
  unfold process_agent_data. intros H. bind_inv H.
  injection H as <-. eauto.
Qed.

(** C3.  Every row that [process_agent_data] returns has
    Total_LOC_Change = Additions + Deletions, whether its PR_ID is a key of
    [pr_loc_data] or takes the default of zeros. *)
Theorem total_loc_is_additions_plus_deletions (py_repr : pyval -> string)
    (agent_name : string) (agent : agent_dir) (rows : list Row.t) :
  process_agent_data py_repr agent_name agent = Ok rows ->
  Forall row_consistent rows.
Proof.
  intros H. apply process_agent_data_ok in H as (locs & Hl & ->).
  apply Forall_map, Forall_forall. intros e _.
  apply merge_entry_consistent, (load_loc_consistent _ _ Hl).
Qed.

(** [gamma] has a row of each kind: PR 42 with commit details, PR 7 without. *)
Lemma total_loc_is_additions_plus_deletions_witness :
  exists rows, process_agent_data no_repr "gamma" gamma = Ok rows /\
               length rows = 2%nat /\ Forall row_consistent rows.
Proof.
  eexists. split; [vm_compute; reflexivity|]. split; [reflexivity|].
  apply (total_loc_is_additions_plus_deletions no_repr "gamma" gamma).
  vm_compute. reflexivity.
Defined.

(** *** The sums of one pull request *)

Lemma sum_commit_stats_spec (commits : list pyval) :
  forallb commit_ok commits = true ->
  forall total_additions total_deletions : Z,
    sum_commit_stats commits total_additions total_deletions =
    Ok (total_additions + spec_sum "additions" commits,
        total_deletions + spec_sum "deletions" commits).
Proof.
  induction commits as [|commit commits IH]; intros Hok a d.
  - cbn. rewrite !Z.add_0_r. reflexivity.
  - cbn [forallb] in Hok. apply andb_prop in Hok as [Hc Hcs].
    specialize (IH Hcs).
    destruct commit as [| | | | |cd]; try discriminate Hc.
    cbn [commit_ok] in Hc.
    cbn [sum_commit_stats spec_sum commit_stats py_in bind].
    destruct (dict_lookup "stats" cd) as [stats|] eqn:Es.
    + rewrite bool_decide_eq_true_2 by eauto.
      cbn [bind py_getitem]. rewrite !Es. cbn [bind].
      destruct stats as [| | | | |st]; try discriminate Hc.
      * apply IH.
      * apply andb_prop in Hc as [Hadd Hdel].
        cbn [bind py_get stat_count].
        destruct (dict_lookup "additions" st) as [[| |x| | |]|];
          try discriminate Hadd;
          destruct (dict_lookup "deletions" st) as [[| |y| | |]|];
          try discriminate Hdel;
          cbn [default from_option id py_add_int bind]; rewrite IH; f_equal; f_equal; lia.
    + rewrite bool_decide_eq_false_2 by (intros [? ?]; discriminate).
      cbn [bind]. apply IH.
Qed.

Lemma loc_of_commits_spec (commits : list pyval) :
  forallb commit_ok commits = true ->
  loc_of_commits (PyList commits) =
  Ok {| Loc.Total_LOC_Change :=
          spec_sum "additions" commits + spec_sum "deletions" commits;
        Loc.Additions := spec_sum "additions" commits;
        Loc.Deletions := spec_sum "deletions" commits |}.
Proof.
  intros Hok. unfold loc_of_commits. cbn [py_iter bind].
  rewrite (sum_commit_stats_spec commits Hok). reflexivity.
Qed.

(** C4.  For a pair [(pr_filename, commits)] of the commit-details file whose
    commits are commit objects, the loop stores under the PR_ID the sum of
    [stats.additions] and the sum of [stats.deletions] (0 when the count is
    absent) over the commits with a non-null [stats], and their total; a
    commit without [stats], or with a null one, adds nothing. *)
Theorem loc_sums_over_commits_with_stats (pr_filename : string)
    (commits : list pyval) (items : list (string * pyval))
    (pr_loc_data : gmap string Loc.t) :
  forallb commit_ok commits = true ->
  calc_loc ((pr_filename, PyList commits) :: items) pr_loc_data =
  calc_loc items
    (<[pr_id_of pr_filename :=
         {| Loc.Total_LOC_Change :=
              spec_sum "additions" commits + spec_sum "deletions" commits;
            Loc.Additions := spec_sum "additions" commits;
            Loc.Deletions := spec_sum "deletions" commits |}]> pr_loc_data).
Proof.
  intros Hok. cbn [calc_loc]. rewrite (loc_of_commits_spec commits Hok).
  reflexivity.
Qed.

(** Four commits: with both counts, without [stats], with a null [stats],
    with additions only. *)
Lemma loc_sums_over_commits_with_stats_witness :
  forallb commit_ok sample_commits = true /\
  calc_loc [("42.json", PyList sample_commits)] ∅ =
  Ok {[ "42" := {| Loc.Total_LOC_Change := 17; Loc.Additions := 15; Loc.Deletions := 2 |} ]}.
Proof.
  split; [reflexivity|].
  rewrite (loc_sums_over_commits_with_stats "42.json" sample_commits [] ∅ eq_refl).
  reflexivity.
Defined.

(** *** Keys with the same PR_ID *)

Lemma calc_loc_app (items1 items2 : list (string * pyval)) :
  forall m : gmap string Loc.t,
    calc_loc (items1 ++ items2) m = (m1 <- calc_loc items1 m;; calc_loc items2 m1).
Proof.
  induction items1 as [|[f c] items1 IH]; intros m; [reflexivity|].
  cbn [app calc_loc]. destruct (loc_of_commits c) as [loc|e]; [|reflexivity].
  cbn [bind]. apply IH.
Qed.

Lemma calc_loc_other_keys (items : list (string * pyval)) (pr_id : string) :
  Forall (fun kv => pr_id_of (fst kv) <> pr_id) items ->
  forall m m' : gmap string Loc.t,
    calc_loc items m = Ok m' -> m' !! pr_id = m !! pr_id.
Proof.
  induction 1 as [|[f c] items Hf _ IH]; intros m m' H.
  - injection H as <-. reflexivity.
  - cbn [calc_loc] in H. bind_inv H. rewrite (IH _ _ H).
    apply lookup_insert_ne. exact Hf.
Qed.

(** C10.  When the loop has run over the pairs, the entry of a PR_ID holds
    the sums of the commits of the last key with that PR_ID, computed from
    zero: a later key overwrites an earlier one, and nothing is summed
    across keys. *)
Theorem later_key_overwrites (items1 items2 : list (string * pyval))
    (pr_filename : string) (commits : pyval) (m0 m : gmap string Loc.t) :
  calc_loc (items1 ++ (pr_filename, commits) :: items2) m0 = Ok m ->
  Forall (fun kv => pr_id_of (fst kv) <> pr_id_of pr_filename) items2 ->
  exists loc, loc_of_commits commits = Ok loc /\ m !! pr_id_of pr_filename = Some loc.
Proof.
  intros H Hlast. rewrite calc_loc_app in H. bind_inv H.
  cbn [calc_loc] in H. apply bind_ok in H as (loc & Hloc & H).
  exists loc. split; [exact Hloc|].
  rewrite (calc_loc_other_keys _ _ Hlast _ _ H). apply lookup_insert_eq.
Qed.

(** "42.json" and "42" give the same PR_ID; the entry is that of "42". *)
Lemma later_key_overwrites_witness :
  pr_id_of "42.json" = pr_id_of "42" /\
  exists m, calc_loc [("42.json", commits_12); ("42", commits_2)] ∅ = Ok m /\
    m !! "42" = Some {| Loc.Total_LOC_Change := 2; Loc.Additions := 1; Loc.Deletions := 1 |}.
Proof.
  split; [reflexivity|].
  eexists. split; [vm_compute; reflexivity|].
  destruct (later_key_overwrites [("42.json", commits_12)] [] "42" commits_2 ∅ _
              eq_refl (Forall_nil_2 _)) as (loc & Hloc & Hm).
  vm_compute in Hloc. injection Hloc as <-. exact Hm.
Defined.

(** *** Defaults of the merge *)

(** C7.  A row whose PR_ID is not a key of [pr_loc_data] has
    Total_LOC_Change, Additions and Deletions 0; a row whose PR_ID is not a
    key of [pr_task_map] has Task_Type "N/A". *)
Theorem merged_defaults (py_repr : pyval -> string) (agent_name : string)
    (agent : agent_dir) (pr_loc_data : gmap string Loc.t) (rows : list Row.t)
    (r : Row.t) :
  load_loc (pr_commit_details_json agent) = Ok pr_loc_data ->
  process_agent_data py_repr agent_name agent = Ok rows ->
  In r rows ->
  (pr_loc_data !! Row.PR_ID r = None ->
   Row.Total_LOC_Change r = 0 /\ Row.Additions r = 0 /\ Row.Deletions r = 0) /\
  (load_task_types (gpt_conventional_commits_csv agent) !! Row.PR_ID r = None ->
   Row.Task_Type r = "N/A").
Proof.
  intros Hl H Hr. apply process_agent_data_ok in H as (locs & Hl' & ->).
  rewrite Hl in Hl'. injection Hl' as <-.
  apply in_map_iff in Hr as (e & <- & _). unfold merge_entry. cbn.
  split; intros ->; cbn; auto.
Qed.

(** PR 7 of [gamma] has neither commit details nor a task type. *)
Lemma merged_defaults_witness :
  process_agent_data no_repr "gamma" gamma = Ok [gamma_row_42; gamma_row_7] /\
  (Row.Total_LOC_Change gamma_row_7 = 0 /\ Row.Additions gamma_row_7 = 0 /\
   Row.Deletions gamma_row_7 = 0) /\
  Row.Task_Type gamma_row_7 = "N/A".
Proof.
  assert (Hrun : process_agent_data no_repr "gamma" gamma = Ok [gamma_row_42; gamma_row_7])
    by (vm_compute; reflexivity).
  split; [exact Hrun|].
  destruct (merged_defaults no_repr "gamma" gamma
              {[ "42" := {| Loc.Total_LOC_Change := 12; Loc.Additions := 10;
                            Loc.Deletions := 2 |} ]}
              [gamma_row_42; gamma_row_7] gamma_row_7) as [Hloc Htask].
  - vm_compute. reflexivity.
  - exact Hrun.
  - right. left. reflexivity.
  - split; [apply Hloc | apply Htask]; vm_compute; reflexivity.
Defined.

(** *** Missing files *)

Lemma process_agent_data_returns (py_repr : pyval -> string) (agent_name : string)
    (agent : agent_dir) (pr_loc_data : gmap string Loc.t) :
  load_loc (pr_commit_details_json agent) = Ok pr_loc_data ->
  process_agent_data py_repr agent_name agent =
  Ok (map (merge_entry agent_name
             (load_task_types (gpt_conventional_commits_csv agent)) pr_loc_data)
          (all_comments_and_reviews py_repr agent)).
Proof. intros H. unfold process_agent_data. rewrite H. reflexivity. Qed.

(** C8.  A comments file that does not exist gives no entry; a
    commit-details file that does not exist gives the empty [pr_loc_data];
    a task-type file that does not exist, or whose loading raises, gives
    the empty [pr_task_map]; and [process_agent_data] returns in each of
    these cases, with the rows of the files that are there. *)
Theorem missing_files_degrade_to_empty (py_repr : pyval -> string) :
  (forall comment_category,
     _extract_comments_with_details py_repr None comment_category = []) /\
  load_loc None = Ok ∅ /\
  load_task_types None = ∅ /\
  (forall e, load_task_types (Some (Raise e)) = ∅) /\
  (forall agent_name csv comments review_comments reviews,
     process_agent_data py_repr agent_name
       {| gpt_conventional_commits_csv := csv;
          pr_commit_details_json := None;
          pr_comments_json := comments;
          pr_review_comments_json := review_comments;
          pr_reviews_json := reviews |} =
     Ok (map (merge_entry agent_name (load_task_types csv) ∅)
           (_extract_comments_with_details py_repr comments "PR_Comment"
            ++ _extract_comments_with_details py_repr review_comments "Review_Comment"
            ++ _extract_comments_with_details py_repr reviews "Review_Summary"))) /\
  (forall agent_name,
     process_agent_data py_repr agent_name
       {| gpt_conventional_commits_csv := None;
          pr_commit_details_json := None;
          pr_comments_json := None;
          pr_review_comments_json := None;
          pr_reviews_json := None |} = Ok []).
Proof. repeat split. Qed.

(** *** A truncated or malformed document *)

Lemma extract_items_ending (py_repr : pyval -> string) (comment_category : string)
    (items : list (string * pyval)) (e1 e2 : option exn) :
  forall extracted_entries,
    fst (extract_items py_repr comment_category items e1 extracted_entries) =
    fst (extract_items py_repr comment_category items e2 extracted_entries).
Proof.
  induction items as [|[f v] items IH]; intros acc; [reflexivity|].
  cbn [extract_items]. destruct (py_iter v) as [entries|x]; [|reflexivity].
  destruct (extract_entries _ _ _ entries acc) as [acc' [x|]]; [reflexivity|].
  apply IH.
Qed.

Lemma _extract_comments_with_details_fst (py_repr : pyval -> string)
    (comment_category : string) (f : kvstream) :
  _extract_comments_with_details py_repr (Some f) comment_category =
  fst (extract_items py_repr comment_category (yielded f) (ending f) []).
Proof.
  unfold _extract_comments_with_details.
  destruct (extract_items _ _ _ _ _) as [es [[]|]]; reflexivity.
Qed.

(** A comments file that stops with an exception gives the entries of the
    pairs parsed before the fault, as the complete document of the same
    pairs does. *)
Lemma comments_before_the_fault_are_kept (py_repr : pyval -> string)
    (comment_category : string) (items : list (string * pyval)) (e : exn) :
  _extract_comments_with_details py_repr
    (Some {| yielded := items; ending := Some e |}) comment_category =
  _extract_comments_with_details py_repr (complete items) comment_category.
Proof.
  unfold complete. rewrite !_extract_comments_with_details_fst.
  apply extract_items_ending.
Qed.

Lemma load_loc_propagates (f : kvstream) (e : exn) :
  ending f = Some e -> exists e', load_loc (Some f) = Raise e'.
Proof.
  intros He. cbn [load_loc]. destruct (calc_loc (yielded f) ∅) as [m|e'].
  - cbn [bind]. rewrite He. eauto.
  - cbn [bind]. eauto.
Qed.

Lemma process_agent_data_propagates (py_repr : pyval -> string)
    (agent_name : string) (agent : agent_dir) (f : kvstream) (e : exn) :
  pr_commit_details_json agent = Some f -> ending f = Some e ->
  exists e', process_agent_data py_repr agent_name agent = Raise e'.
Proof.
  intros Hf He. unfold process_agent_data. rewrite Hf.
  destruct (load_loc_propagates f e He) as [e' ->]. cbn [bind]. eauto.
Qed.

(** C1 fails for pr_commit_details.json.  The loop over the commit details
    has no [try]: the exception of a truncated document leaves
    [process_agent_data] for agent "beta", the pair parsed before the fault
    is lost, and [main] stops before it reaches agent "alpha". *)
Theorem truncated_commit_details_abort_the_batch :
  process_agent_data no_repr "beta" beta = Raise IncompleteJSONError /\
  main no_repr (Some [("beta", Directory beta); ("alpha", Directory alpha)]) =
  Raise IncompleteJSONError.
Proof. split; vm_compute; reflexivity. Qed.

(** *** The body of a review summary *)

Lemma entry_body_review_summary (py_repr : pyval -> string)
    (d : list (string * pyval)) :
  entry_body py_repr "Review_Summary" (PyDict d) = Ok (review_summary_body py_repr d).
Proof.
  unfold entry_body, review_summary_body.
  change (String.eqb "Review_Summary" "Review_Summary") with true.
  cbn [py_get py_getitem bind].
  set (body := default (PyStr "") (dict_lookup "body" d)).
  destruct (truthy body); cbn [negb andb bind].
  - destruct (dict_lookup "state" d); reflexivity.
  - destruct (dict_lookup "state" d) as [state|]; cbn [default from_option id].
    + destruct (truthy state); reflexivity.
    + reflexivity.
Qed.

Lemma entry_body_returns (py_repr : pyval -> string) (comment_category : string)
    (d : list (string * pyval)) :
  exists body, entry_body py_repr comment_category (PyDict d) = Ok body.
Proof.
  unfold entry_body. cbn [py_get py_getitem bind].
  destruct (String.eqb _ _); [|eauto]. destruct (negb _); [|eauto].
  destruct (dict_lookup "state" d) as [st|]; cbn; [|eauto].
  destruct (truthy st); eauto.
Qed.

(** An entry object is extracted without an exception as soon as its
    [user] is absent, falsy or an object. *)
Lemma extract_entry_returns (py_repr : pyval -> string)
    (comment_category pr_id : string) (d : list (string * pyval)) :
  match dict_lookup "user" d with
  | None | Some (PyDict _) => True
  | Some user => truthy user = false
  end ->
  exists e, extract_entry py_repr comment_category pr_id (PyDict d) = Ok e.
Proof.
  intros Hu. unfold extract_entry.
  destruct (entry_body_returns py_repr comment_category d) as [body ->].
  cbn [py_get bind].
  destruct (dict_lookup "user" d) as [user|]; cbn.
  - destruct user as [| | | | |ud]; cbn in Hu |- *; try rewrite Hu; cbn; eauto.
    destruct ud; cbn; eauto.
  - eauto.
Qed.

(** C5.  An entry extracted under the category Review_Summary has the
    Comment_Body "Review State: " followed by the state when its body is
    empty and its state is not, and its body as it is in every other case. *)
Theorem review_summary_body_rule (py_repr : pyval -> string) (pr_id : string)
    (d : list (string * pyval)) (e : Entry.t) :
  extract_entry py_repr "Review_Summary" pr_id (PyDict d) = Ok e ->
  Entry.Comment_Body e = review_summary_body py_repr d.
Proof.
  unfold extract_entry. rewrite entry_body_review_summary. cbn [bind].
  intros H. bind_inv H. bind_inv H. bind_inv H. injection H as <-. reflexivity.
Qed.

(** The two entries of the specification: a state alone, and a body next to
    a state. *)
Lemma review_summary_body_rule_witness :
  (exists e, extract_entry no_repr "Review_Summary" "42"
               (PyDict [("state", PyStr "APPROVED")]) = Ok e /\
             Entry.Comment_Body e = PyStr "Review State: APPROVED") /\
  (exists e, extract_entry no_repr "Review_Summary" "42"
               (PyDict [("body", PyStr "nice"); ("state", PyStr "APPROVED")]) = Ok e /\
             Entry.Comment_Body e = PyStr "nice").
Proof.
  split; eexists; (split; [vm_compute; reflexivity|]).
  - apply (review_summary_body_rule no_repr "42" [("state", PyStr "APPROVED")]).
    vm_compute. reflexivity.
  - apply (review_summary_body_rule no_repr "42"
             [("body", PyStr "nice"); ("state", PyStr "APPROVED")]).
    vm_compute. reflexivity.
Defined.

(** *** Order of the output *)

Lemma extract_entry_category (py_repr : pyval -> string)
    (comment_category pr_id : string) (entry : pyval) (e : Entry.t) :
  extract_entry py_repr comment_category pr_id entry = Ok e ->
  Entry.Comment_Category e = comment_category.
Proof.
  unfold extract_entry. intros H.
  bind_inv H. bind_inv H. bind_inv H. bind_inv H. injection H as <-. reflexivity.
Qed.

(** The inner loop appends the dictionaries of the first [n] entries, and
    of all the entries when no exception stops it. *)
Lemma extract_entries_prefix (py_repr : pyval -> string)
    (comment_category pr_filename : string) (entries : list pyval) :
  forall extracted_entries,
  exists (n : nat) (es : list Entry.t) (x : option exn),
    extract_entries py_repr comment_category (pr_id_of pr_filename) entries
      extracted_entries = (extracted_entries ++ es, x) /\
    map Some es = map (entry_of_input py_repr comment_category)
                      (take n (map (pair pr_filename) entries)) /\
    (n <= length entries)%nat /\
    (x = None -> n = length entries).
Proof.
  induction entries as [|entry entries IH]; intros acc.
  - exists 0%nat, [], None. rewrite app_nil_r. repeat split; cbn; lia.
  - cbn [extract_entries].
    destruct (extract_entry py_repr comment_category (pr_id_of pr_filename) entry)
      as [e|x] eqn:E.
    + destruct (IH (acc ++ [e])) as (n & es & x & -> & Hes & Hn & Hx).
      exists (S n), (e :: es), x. rewrite <- app_assoc. split; [reflexivity|].
      split; [|split; [cbn; lia | intros ->; cbn; rewrite (Hx eq_refl); reflexivity]].
      cbn [map take]. rewrite <- Hes. f_equal.
      unfold entry_of_input. cbn [fst snd]. rewrite E. reflexivity.
    + exists 0%nat, [], (Some x). rewrite app_nil_r.
      repeat split; [cbn; lia | discriminate].
Qed.

Lemma extract_items_prefix (py_repr : pyval -> string) (comment_category : string)
    (ending : option exn) (items : list (string * pyval)) :
  forall extracted_entries,
  exists (n : nat) (es : list Entry.t) (x : option exn),
    extract_items py_repr comment_category items ending extracted_entries =
      (extracted_entries ++ es, x) /\
    map Some es = map (entry_of_input py_repr comment_category)
                      (take n (input_entries (complete items))).
Proof.
  unfold input_entries, complete. cbn [yielded].
  induction items as [|[f v] items IH]; intros acc.
  - exists 0%nat, [], ending. rewrite app_nil_r. split; reflexivity.
  - cbn [extract_items flat_map fst snd].
    destruct (py_iter v) as [entries|x].
    + destruct (extract_entries_prefix py_repr comment_category f entries acc)
        as (n & es & x & -> & Hes & Hn & Hx).
      destruct x as [x|].
      * exists n, es, (Some x). split; [reflexivity|].
        rewrite take_app_le by (rewrite length_map; exact Hn). exact Hes.
      * rewrite (Hx eq_refl) in Hes.
        rewrite firstn_all2 in Hes by (rewrite length_map; lia).
        destruct (IH (acc ++ es)) as (n2 & es2 & x2 & -> & Hes2).
        exists (length (map (pair f) entries) + n2)%nat, (es ++ es2), x2.
        rewrite <- app_assoc. split; [reflexivity|].
        rewrite take_app_add, !map_app, Hes, Hes2. reflexivity.
    + exists 0%nat, [], (Some x). rewrite app_nil_r. split; reflexivity.
Qed.

Lemma _extract_comments_with_details_prefix (py_repr : pyval -> string)
    (comment_category : string) (file : option kvstream) :
  exists n : nat,
    map Some (_extract_comments_with_details py_repr file comment_category) =
    map (entry_of_input py_repr comment_category) (take n (input_entries file)).
Proof.
  destruct file as [f|].
  - rewrite _extract_comments_with_details_fst.
    destruct (extract_items_prefix py_repr comment_category (ending f) (yielded f) [])
      as (n & es & x & -> & Hes).
    exists n. exact Hes.
  - exists 0%nat. reflexivity.
Qed.

Lemma _extract_comments_with_details_category (py_repr : pyval -> string)
    (comment_category : string) (file : option kvstream) :
  Forall (fun e => Entry.Comment_Category e = comment_category)
         (_extract_comments_with_details py_repr file comment_category).
Proof.
  destruct (_extract_comments_with_details_prefix py_repr comment_category file)
    as [n Hn].
  revert Hn. generalize (take n (input_entries file)).
  induction (_extract_comments_with_details py_repr file comment_category)
    as [|e es IH]; intros l Hl; [constructor|].
  destruct l as [|kv l]; [discriminate|]. injection Hl as He Hes.
  constructor; [|apply (IH l Hes)].
  unfold entry_of_input in He.
  destruct (extract_entry _ _ _ _) as [e'|] eqn:E; [|discriminate].
  injection He as ->. apply (extract_entry_category _ _ _ _ _ E).
Qed.

Lemma in_input_order_merge (py_repr : pyval -> string) (agent_name : string)
    (tasks : gmap string string) (locs : gmap string Loc.t)
    (comment_category : string) (file : option kvstream) :
  in_input_order py_repr agent_name tasks locs comment_category file
    (map (merge_entry agent_name tasks locs)
         (_extract_comments_with_details py_repr file comment_category)).
Proof.
  destruct (_extract_comments_with_details_prefix py_repr comment_category file)
    as [n Hn].
  exists n. unfold row_of_input.
  rewrite <- (map_map (entry_of_input py_repr comment_category)
                      (option_map (merge_entry agent_name tasks locs))).
  rewrite <- Hn, !map_map. reflexivity.
Qed.

(** C6.  The rows of an agent are those of the category PR_Comment, then
    those of Review_Comment, then those of Review_Summary; and the rows of
    a category are the rows of the first entries of its file, in input
    order (keys in document order, entries in array order). *)
Theorem categories_in_fixed_order (py_repr : pyval -> string) (agent_name : string)
    (agent : agent_dir) (rows : list Row.t) :
  process_agent_data py_repr agent_name agent = Ok rows ->
  exists (pr_loc_data : gmap string Loc.t) (comments review_comments reviews : list Row.t),
    load_loc (pr_commit_details_json agent) = Ok pr_loc_data /\
    rows = comments ++ review_comments ++ reviews /\
    Forall (fun r => Row.Comment_Category r = "PR_Comment") comments /\
    Forall (fun r => Row.Comment_Category r = "Review_Comment") review_comments /\
    Forall (fun r => Row.Comment_Category r = "Review_Summary") reviews /\
    in_input_order py_repr agent_name
      (load_task_types (gpt_conventional_commits_csv agent)) pr_loc_data
      "PR_Comment" (pr_comments_json agent) comments /\
    in_input_order py_repr agent_name
      (load_task_types (gpt_conventional_commits_csv agent)) pr_loc_data
      "Review_Comment" (pr_review_comments_json agent) review_comments /\
    in_input_order py_repr agent_name
      (load_task_types (gpt_conventional_commits_csv agent)) pr_loc_data
      "Review_Summary" (pr_reviews_json agent) reviews.
Proof.
  intros H. apply process_agent_data_ok in H as (locs & Hl & ->).
  exists locs. unfold all_comments_and_reviews. rewrite !map_app.
  do 3 eexists. split; [exact Hl|]. split; [reflexivity|].
  repeat split;
    try (apply Forall_map;
         exact (_extract_comments_with_details_category py_repr _ _));
    apply in_input_order_merge.
Qed.

(** When every value is iterable and no entry raises, every input entry
    is extracted, whatever the way the stream ends. *)
Lemma extract_entries_all (py_repr : pyval -> string)
    (comment_category pr_filename : string) (entries : list pyval) :
  Forall (fun kv => is_Some (entry_of_input py_repr comment_category kv))
         (map (pair pr_filename) entries) ->
  forall extracted_entries,
  exists es,
    extract_entries py_repr comment_category (pr_id_of pr_filename) entries
      extracted_entries = (extracted_entries ++ es, None) /\
    map Some es = map (entry_of_input py_repr comment_category)
                      (map (pair pr_filename) entries).
Proof.
  induction entries as [|entry entries IH]; intros Hall acc.
  - exists []. rewrite app_nil_r. split; reflexivity.
  - cbn [map] in Hall. apply Forall_cons in Hall as [[e He] Hall].
    cbn [extract_entries map]. rewrite He. unfold entry_of_input in He.
    cbn [fst snd] in He.
    destruct (extract_entry _ _ _ entry) as [e'|]; [|discriminate].
    injection He as ->.
    destruct (IH Hall (acc ++ [e])) as (es & -> & Hes).
    exists (e :: es). rewrite <- app_assoc. split; [reflexivity|].
    cbn [map]. rewrite Hes. reflexivity.
Qed.

Lemma extract_items_all (py_repr : pyval -> string) (comment_category : string)
    (ending : option exn) (items : list (string * pyval)) :
  Forall (fun kv => exists entries, py_iter (snd kv) = Ok entries) items ->
  Forall (fun kv => is_Some (entry_of_input py_repr comment_category kv))
         (input_entries (complete items)) ->
  forall extracted_entries,
  exists es,
    extract_items py_repr comment_category items ending extracted_entries =
      (extracted_entries ++ es, ending) /\
    map Some es = map (entry_of_input py_repr comment_category)
                      (input_entries (complete items)).
Proof.
  unfold input_entries, complete. cbn [yielded].
  induction items as [|[k v] items IH]; intros Hiter Hall acc.
  - exists []. rewrite app_nil_r. split; reflexivity.
  - apply Forall_cons in Hiter as [[entries Hv] Hiter].
    cbn [flat_map fst snd] in Hall |- *. cbn [snd] in Hv.
    cbn [extract_items]. rewrite Hv in Hall |- *.
    apply Forall_app in Hall as [Hk Hall].
    destruct (extract_entries_all py_repr comment_category k entries Hk acc)
      as (es & -> & Hes).
    destruct (IH Hiter Hall (acc ++ es)) as (es2 & -> & Hes2).
    exists (es ++ es2). rewrite <- app_assoc. split; [reflexivity|].
    rewrite !map_app, Hes, Hes2. reflexivity.
Qed.

Lemma all_entries_extracted (py_repr : pyval -> string) (comment_category : string)
    (f : kvstream) :
  Forall (fun kv => exists entries, py_iter (snd kv) = Ok entries) (yielded f) ->
  Forall (fun kv => is_Some (entry_of_input py_repr comment_category kv))
         (input_entries (Some f)) ->
  map Some (_extract_comments_with_details py_repr (Some f) comment_category) =
  map (entry_of_input py_repr comment_category) (input_entries (Some f)).
Proof.
  intros Hiter Hall. rewrite _extract_comments_with_details_fst.
  destruct (extract_items_all py_repr comment_category (ending f) (yielded f)
              Hiter Hall []) as (es & -> & Hes).
  exact Hes.
Qed.

(** [delta] has entries in the three files, under two keys in the first. *)
Lemma categories_in_fixed_order_witness :
  exists rows,
    process_agent_data no_repr "delta" delta = Ok rows /\
    map Row.Comment_Body rows =
      [PyStr "a"; PyStr "b"; PyStr "c"; PyStr "d"; PyStr "Review State: APPROVED"] /\
    exists (pr_loc_data : gmap string Loc.t) (comments review_comments reviews : list Row.t),
      load_loc (pr_commit_details_json delta) = Ok pr_loc_data /\
      rows = comments ++ review_comments ++ reviews /\
      Forall (fun r => Row.Comment_Category r = "PR_Comment") comments /\
      Forall (fun r => Row.Comment_Category r = "Review_Comment") review_comments /\
      Forall (fun r => Row.Comment_Category r = "Review_Summary") reviews /\
      in_input_order no_repr "delta" ∅ pr_loc_data
        "PR_Comment" (pr_comments_json delta) comments /\
      in_input_order no_repr "delta" ∅ pr_loc_data
        "Review_Comment" (pr_review_comments_json delta) review_comments /\
      in_input_order no_repr "delta" ∅ pr_loc_data
        "Review_Summary" (pr_reviews_json delta) reviews.
Proof.
  eexists. split; [vm_compute; reflexivity|]. split; [reflexivity|].
  apply (categories_in_fixed_order no_repr "delta" delta).
  vm_compute. reflexivity.
Defined.

(** *** Nothing to do *)

Lemma process_agents_no_rows (py_repr : pyval -> string)
    (agent_dirs : list (string * agent_dir)) :
  Forall (fun na => process_agent_data py_repr (fst na) (snd na) = Ok []) agent_dirs ->
  forall all_data out,
  exists out', process_agents py_repr agent_dirs all_data out = Ok (all_data, out').
Proof.
  induction 1 as [|[agent_name agent] agent_dirs Ha _ IH]; intros all_data out.
  - exists out. reflexivity.
  - cbn [process_agents]. cbn [fst snd] in Ha. rewrite Ha. cbn [bind].
    rewrite app_nil_r. apply IH.
Qed.

(** C9.  When the base directory does not exist, or holds no agent
    directory, or every agent gives no row, [main] returns without an
    exception, writes no output file, and prints the line that says why. *)
Theorem nothing_to_do_writes_no_file (py_repr : pyval -> string)
    (base : option (list (string * dir_entry))) :
  nothing_to_do py_repr base ->
  exists out,
    main py_repr base = Ok {| printed := out; output_csv := None |} /\
    In (nothing_to_do_message base) out.
Proof.
  destruct base as [listing|]; cbn [nothing_to_do nothing_to_do_message main].
  - intros Hno. destruct (agent_dirs_of listing) as [|a agent_dirs] eqn:E.
    + eexists. split; [reflexivity|]. right. left. reflexivity.
    + destruct (process_agents_no_rows py_repr _ Hno []
                  ([msg_start] ++ ["Found " +:+ pretty (length (a :: agent_dirs))
                                     +:+ " agent directories in '" +:+ BASE_DIR +:+ "'."]))
        as [out' ->].
      cbn [bind fst snd]. eexists. split; [reflexivity|].
      apply in_or_app. right. left. reflexivity.
  - intros _. eexists. split; [reflexivity|]. right. left. reflexivity.
Qed.

(** No base directory; a base directory with a plain file only; an agent
    with no comment at all. *)
Lemma nothing_to_do_writes_no_file_witness :
  (exists out, main no_repr None = Ok {| printed := out; output_csv := None |} /\
               In msg_no_base_dir out) /\
  (exists out, main no_repr (Some [("README.md", File)]) =
               Ok {| printed := out; output_csv := None |} /\
               In msg_no_agent_dirs out) /\
  (exists out, main no_repr (Some [("epsilon", Directory epsilon)]) =
               Ok {| printed := out; output_csv := None |} /\
               In msg_no_data out).
Proof.
  split; [|split].
  - apply (nothing_to_do_writes_no_file no_repr None). exact I.
  - apply (nothing_to_do_writes_no_file no_repr (Some [("README.md", File)])).
    constructor.
  - apply (nothing_to_do_writes_no_file no_repr (Some [("epsilon", Directory epsilon)])).
    repeat constructor.
Defined.

(** * Further properties *)

(** ** The user of an entry *)

Lemma extract_entry_user (py_repr : pyval -> string)
    (comment_category pr_id : string) (d : list (string * pyval)) :
  exists body,
    entry_body py_repr comment_category (PyDict d) = Ok body /\
    extract_entry py_repr comment_category pr_id (PyDict d) =
    match user_object d with
    | Some ud =>
        Ok {| Entry.PR_ID := pr_id;
              Entry.Comment_Body := body;
              Entry.User_Login := default (PyStr "N/A") (dict_lookup "login" ud);
              Entry.User_Type := default (PyStr "N/A") (dict_lookup "type" ud);
              Entry.Comment_Category := comment_category |}
    | None => Raise AttributeError
    end.
Proof.
  destruct (entry_body_returns py_repr comment_category d) as [body Hb].
  exists body. split; [exact Hb|].
  unfold extract_entry, user_object. rewrite Hb. cbn [bind py_get].
  destruct (dict_lookup "user" d) as [u|]; cbn [default from_option id]; [|reflexivity].
  destruct u as [|b|z|s|l|ud]; cbn [truthy]; try reflexivity.
  - destruct b; reflexivity.
  - destruct (negb (z =? 0)); reflexivity.
  - destruct (negb (String.eqb s "")); reflexivity.
  - destruct l; reflexivity.
  - destruct ud; reflexivity.
Qed.

(** X1.  An entry object whose [user] is absent, falsy or an object is
    extracted without an exception; its User_Login and User_Type are the
    [login] and [type] of that object, each "N/A" when the key is absent,
    and both "N/A" when there is no user. *)
Theorem user_fields_default_to_sentinel (py_repr : pyval -> string)
    (comment_category pr_id : string) (d ud : list (string * pyval)) :
  user_object d = Some ud ->
  exists e,
    extract_entry py_repr comment_category pr_id (PyDict d) = Ok e /\
    Entry.PR_ID e = pr_id /\
    Entry.Comment_Category e = comment_category /\
    Entry.User_Login e = default (PyStr "N/A") (dict_lookup "login" ud) /\
    Entry.User_Type e = default (PyStr "N/A") (dict_lookup "type" ud).
Proof.
  intros Hu.
  destruct (extract_entry_user py_repr comment_category pr_id d) as (body & _ & ->).
  rewrite Hu. eexists. split; [reflexivity|]. repeat split.
Qed.

(** X2.  An entry whose [user] is truthy and no object (a non-empty string,
    a number, [true], a non-empty array) raises AttributeError at
    [user.get]. *)
Theorem user_that_is_no_object_raises (py_repr : pyval -> string)
    (comment_category pr_id : string) (d : list (string * pyval)) :
  user_object d = None ->
  extract_entry py_repr comment_category pr_id (PyDict d) = Raise AttributeError.
Proof.
  intros Hu.
  destruct (extract_entry_user py_repr comment_category pr_id d) as (body & _ & ->).
  rewrite Hu. reflexivity.
Qed.

(** ** The body outside the review summaries *)

(** X3.  Under a category other than Review_Summary the Comment_Body is the
    [body] of the entry, or "" when the key is absent; the [state] is never
    looked at. *)
Theorem body_kept_outside_review_summary (py_repr : pyval -> string)
    (comment_category pr_id : string) (d : list (string * pyval)) (e : Entry.t) :
  comment_category <> "Review_Summary" ->
  extract_entry py_repr comment_category pr_id (PyDict d) = Ok e ->
  Entry.Comment_Body e = default (PyStr "") (dict_lookup "body" d).
Proof.
  intros Hc H. apply String.eqb_neq in Hc.
  unfold extract_entry, entry_body in H. cbn [py_get bind] in H.
  rewrite Hc in H. cbn [bind] in H.
  bind_inv H. bind_inv H. injection H as <-. reflexivity.
Qed.

(** ** Where the extraction stops *)

Lemma until_none_app {A : Type} (l1 l2 : list (option A)) (es : list A) :
  l1 = map Some es -> until_none (l1 ++ l2) = es ++ until_none l2.
Proof.
  intros ->. induction es as [|e es IH]; [reflexivity|].
  cbn [map app until_none]. rewrite IH. reflexivity.
Qed.

Lemma until_none_stop {A : Type} (l1 l2 : list (option A)) :
  ~ Forall is_Some l1 -> until_none (l1 ++ l2) = until_none l1.
Proof.
  induction l1 as [|[a|] l1 IH]; intros H.
  - destruct H. constructor.
  - cbn [app until_none]. rewrite IH; [reflexivity|].
    intros Hall. apply H. constructor; [eauto | exact Hall].
  - reflexivity.
Qed.

(** The inner loop appends the dictionaries in front of the first entry
    that raises, and tells by its exception whether there is one. *)
Lemma extract_entries_until_none (py_repr : pyval -> string)
    (comment_category pr_filename : string) (entries : list pyval) :
  forall extracted_entries,
  exists x,
    extract_entries py_repr comment_category (pr_id_of pr_filename) entries
      extracted_entries =
    (extracted_entries
       ++ until_none (map (entry_of_input py_repr comment_category)
                          (map (pair pr_filename) entries)), x) /\
    (x = None <->
     Forall is_Some (map (entry_of_input py_repr comment_category)
                         (map (pair pr_filename) entries))).
Proof.
  induction entries as [|entry entries IH]; intros acc.
  - exists None. cbn. rewrite app_nil_r. split; [reflexivity|].
    split; [constructor | reflexivity].
  - cbn [extract_entries map until_none]. unfold entry_of_input at 1 3.
    cbn [fst snd].
    destruct (extract_entry py_repr comment_category (pr_id_of pr_filename) entry)
      as [e|x].
    + destruct (IH (acc ++ [e])) as (x & -> & Hx). exists x.
      rewrite <- app_assoc. split; [reflexivity|].
      rewrite Hx. split; [intros H; constructor; eauto|].
      intros H. apply Forall_cons in H as [_ H]. exact H.
    + exists (Some x). rewrite app_nil_r. split; [reflexivity|].
      split; [discriminate|]. intros H. apply Forall_cons in H as [[? H] _].
      discriminate H.
Qed.

Lemma until_none_all {A : Type} (l : list (option A)) :
  Forall is_Some l -> l = map Some (until_none l).
Proof.
  induction 1 as [|o l [a ->] _ IH]; [reflexivity|].
  cbn [until_none map]. rewrite <- IH. reflexivity.
Qed.

Lemma extract_items_until_none (py_repr : pyval -> string) (comment_category : string)
    (ending : option exn) (items : list (string * pyval)) :
  Forall (fun kv => exists entries, py_iter (snd kv) = Ok entries) items ->
  forall extracted_entries,
    fst (extract_items py_repr comment_category items ending extracted_entries) =
    extracted_entries
      ++ until_none (map (entry_of_input py_repr comment_category)
                         (input_entries (complete items))).
Proof.
  unfold input_entries, complete. cbn [yielded].
  induction 1 as [|[k v] items [entries Hv] _ IH]; intros acc.
  - cbn. rewrite app_nil_r. reflexivity.
  - cbn [snd] in Hv. cbn [extract_items flat_map fst snd]. rewrite Hv.
    destruct (extract_entries_until_none py_repr comment_category k entries acc)
      as (x & -> & Hx).
    rewrite map_app. destruct x as [x|].
    + cbn [fst]. rewrite until_none_stop; [reflexivity|].
      intros Hall. apply Hx in Hall. discriminate Hall.
    + rewrite IH, <- app_assoc. f_equal. symmetry.
      apply until_none_app, until_none_all, Hx. reflexivity.
Qed.

(** X4.  When every value of a comments file is iterable, the entries
    extracted are exactly those in front of the first entry that raises:
    nothing behind it is extracted, under its key or under a later one. *)
Theorem extraction_stops_at_first_fault (py_repr : pyval -> string)
    (comment_category : string) (f : kvstream) :
  Forall (fun kv => exists entries, py_iter (snd kv) = Ok entries) (yielded f) ->
  _extract_comments_with_details py_repr (Some f) comment_category =
  until_none (map (entry_of_input py_repr comment_category) (input_entries (Some f))).
Proof.
  intros Hiter. rewrite _extract_comments_with_details_fst.
  apply (extract_items_until_none py_repr comment_category (ending f) (yielded f) Hiter []).
Qed.

Lemma extract_items_app (py_repr : pyval -> string) (comment_category : string)
    (ending : option exn) (items1 items2 : list (string * pyval)) :
  forall extracted_entries,
    extract_items py_repr comment_category (items1 ++ items2) ending extracted_entries =
    match extract_items py_repr comment_category items1 None extracted_entries with
    | (extracted_entries', None) =>
        extract_items py_repr comment_category items2 ending extracted_entries'
    | (extracted_entries', Some x) => (extracted_entries', Some x)
    end.
Proof.
  induction items1 as [|[k v] items1 IH]; intros acc; [reflexivity|].
  cbn [app extract_items]. destruct (py_iter v) as [entries|x]; [|reflexivity].
  destruct (extract_entries _ _ _ entries acc) as [acc' [x|]]; [reflexivity|].
  apply IH.
Qed.

(** X5.  A key whose value is not iterable (null, a number, a boolean) ends
    the extraction: the result is that of the pairs in front of it, and the
    pairs behind it are not read. *)
Theorem value_that_is_not_iterable_ends_extraction (py_repr : pyval -> string)
    (comment_category : string) (f : kvstream)
    (items1 items2 : list (string * pyval)) (pr_filename : string) (v : pyval) (x : exn) :
  yielded f = items1 ++ (pr_filename, v) :: items2 ->
  py_iter v = Raise x ->
  _extract_comments_with_details py_repr (Some f) comment_category =
  _extract_comments_with_details py_repr (complete items1) comment_category.
Proof.
  intros Hf Hv. unfold complete. rewrite !_extract_comments_with_details_fst.
  cbn [yielded ending]. rewrite Hf, extract_items_app.
  destruct (extract_items py_repr comment_category items1 None []) as [acc [y|]];
    [reflexivity|].
  cbn [extract_items]. rewrite Hv. reflexivity.
Qed.

(** ** Faults of the comments files and the agent *)

Lemma _extract_comments_with_details_without_fault (py_repr : pyval -> string)
    (comment_category : string) (file : option kvstream) :
  _extract_comments_with_details py_repr (without_fault file) comment_category =
  _extract_comments_with_details py_repr file comment_category.
Proof.
  destruct file as [f|]; [|reflexivity]. unfold without_fault, complete.
  rewrite !_extract_comments_with_details_fst. apply extract_items_ending.
Qed.

(** X6.  However the three comments documents end (complete, truncated or
    malformed), [process_agent_data] gives what it gives for the complete
    documents of the same pairs. *)
Theorem comment_faults_do_not_reach_the_agent (py_repr : pyval -> string)
    (agent_name : string) (agent : agent_dir) :
  process_agent_data py_repr agent_name agent =
  process_agent_data py_repr agent_name
    {| gpt_conventional_commits_csv := gpt_conventional_commits_csv agent;
       pr_commit_details_json := pr_commit_details_json agent;
       pr_comments_json := without_fault (pr_comments_json agent);
       pr_review_comments_json := without_fault (pr_review_comments_json agent);
       pr_reviews_json := without_fault (pr_reviews_json agent) |}.
Proof.
  unfold process_agent_data, all_comments_and_reviews.
  cbn [gpt_conventional_commits_csv pr_commit_details_json pr_comments_json
       pr_review_comments_json pr_reviews_json].
  rewrite !_extract_comments_with_details_without_fault. reflexivity.
Qed.

(** ** The merge as a join *)

(** X7.  The merge gives one row per extracted entry, in the same order,
    with the agent name and the PR_ID, category, body, login and type of
    the entry: no entry is dropped for want of commit details or of a task
    type, and none is added. *)
Theorem one_row_per_entry (py_repr : pyval -> string) (agent_name : string)
    (agent : agent_dir) (rows : list Row.t) :
  process_agent_data py_repr agent_name agent = Ok rows ->
  Forall2 (row_copies_entry agent_name) (all_comments_and_reviews py_repr agent) rows.
Proof.
  intros H. apply process_agent_data_ok in H as (locs & _ & ->).
  induction (all_comments_and_reviews py_repr agent) as [|e es IH]; cbn [map].
  - constructor.
  - constructor; [|exact IH]. repeat split.
Qed.

(** X8.  A row whose PR_ID is a key of [pr_loc_data] carries the three
    numbers stored there, and a row whose PR_ID is a key of [pr_task_map]
    carries the type stored there. *)
Theorem merged_values_of_known_pr (py_repr : pyval -> string) (agent_name : string)
    (agent : agent_dir) (pr_loc_data : gmap string Loc.t) (rows : list Row.t)
    (r : Row.t) :
  load_loc (pr_commit_details_json agent) = Ok pr_loc_data ->
  process_agent_data py_repr agent_name agent = Ok rows ->
  In r rows ->
  (forall loc, pr_loc_data !! Row.PR_ID r = Some loc ->
     Row.Total_LOC_Change r = Loc.Total_LOC_Change loc /\
     Row.Additions r = Loc.Additions loc /\
     Row.Deletions r = Loc.Deletions loc) /\
  (forall task_type,
     load_task_types (gpt_conventional_commits_csv agent) !! Row.PR_ID r = Some task_type ->
     Row.Task_Type r = task_type).
Proof.
  intros Hl H Hr. apply process_agent_data_ok in H as (locs & Hl' & ->).
  rewrite Hl in Hl'. injection Hl' as <-.
  apply in_map_iff in Hr as (e & <- & _). unfold merge_entry. cbn.
  split; intros v ->; cbn; auto.
Qed.

(** X9.  Two rows of an agent with the same PR_ID have the same Task_Type,
    Total_LOC_Change, Additions and Deletions, whatever their categories. *)
Theorem rows_of_one_pr_agree (py_repr : pyval -> string) (agent_name : string)
    (agent : agent_dir) (rows : list Row.t) (r1 r2 : Row.t) :
  process_agent_data py_repr agent_name agent = Ok rows ->
  In r1 rows -> In r2 rows ->
  Row.PR_ID r1 = Row.PR_ID r2 ->
  Row.Task_Type r1 = Row.Task_Type r2 /\
  Row.Total_LOC_Change r1 = Row.Total_LOC_Change r2 /\
  Row.Additions r1 = Row.Additions r2 /\
  Row.Deletions r1 = Row.Deletions r2.
Proof.
  intros H H1 H2. apply process_agent_data_ok in H as (locs & _ & ->).
  apply in_map_iff in H1 as (e1 & <- & _).
  apply in_map_iff in H2 as (e2 & <- & _).
  unfold merge_entry. cbn. intros ->. repeat split.
Qed.

(** ** The PR_ID of a row *)

Lemma extract_entry_pr_id (py_repr : pyval -> string)
    (comment_category pr_id : string) (entry : pyval) (e : Entry.t) :
  extract_entry py_repr comment_category pr_id entry = Ok e ->
  Entry.PR_ID e = pr_id.
Proof.
  unfold extract_entry. intros H.
  bind_inv H. bind_inv H. bind_inv H. bind_inv H. injection H as <-. reflexivity.
Qed.

Lemma input_entries_key (file : option kvstream) (kv : string * pyval) :
  In kv (input_entries file) ->
  exists f, file = Some f /\ In (fst kv) (map fst (yielded f)).
Proof.
  destruct file as [f|]; [|intros []]. cbn [input_entries]. intros H.
  exists f. split; [reflexivity|].
  apply in_flat_map in H as ([k v] & Hkv & H). cbn [fst snd] in H.
  apply in_map_iff in H as (entry & <- & _). cbn [fst].
  apply in_map_iff. exists (k, v). split; [reflexivity | exact Hkv].
Qed.

Lemma _extract_comments_with_details_pr_id (py_repr : pyval -> string)
    (comment_category : string) (file : option kvstream) (e : Entry.t) :
  In e (_extract_comments_with_details py_repr file comment_category) ->
  exists f pr_filename,
    file = Some f /\ In pr_filename (map fst (yielded f)) /\
    Entry.PR_ID e = pr_id_of pr_filename.
Proof.
  destruct (_extract_comments_with_details_prefix py_repr comment_category file)
    as [n Hn].
  intros He. apply (in_map Some) in He. rewrite Hn in He.
  apply in_map_iff in He as (kv & Hkv & Hin).
  assert (Hin' : In kv (input_entries file)).
  { rewrite <- (take_drop n (input_entries file)). apply in_or_app. left. exact Hin. }
  destruct (input_entries_key file kv Hin') as (f & -> & Hk).
  exists f, (fst kv). split; [reflexivity|]. split; [exact Hk|].
  unfold entry_of_input in Hkv.
  destruct (extract_entry _ _ _ _) as [e'|] eqn:E; [|discriminate].
  injection Hkv as ->. apply (extract_entry_pr_id _ _ _ _ _ E).
Qed.

(** X10.  The PR_ID of a row comes from a key of one of the three comments
    files of the agent: commit details and task types alone give no row. *)
Theorem row_pr_id_comes_from_a_comments_key (py_repr : pyval -> string)
    (agent_name : string) (agent : agent_dir) (rows : list Row.t) (r : Row.t) :
  process_agent_data py_repr agent_name agent = Ok rows ->
  In r rows ->
  exists f pr_filename,
    (pr_comments_json agent = Some f \/
     pr_review_comments_json agent = Some f \/
     pr_reviews_json agent = Some f) /\
    In pr_filename (map fst (yielded f)) /\
    Row.PR_ID r = pr_id_of pr_filename.
Proof.
  intros H Hr. apply process_agent_data_ok in H as (locs & _ & ->).
  apply in_map_iff in Hr as (e & <- & He). unfold all_comments_and_reviews in He.
  cbn [merge_entry Row.PR_ID].
  apply in_app_or in He as [He|He]; [|apply in_app_or in He as [He|He]];
    apply _extract_comments_with_details_pr_id in He as (f & k & Hf & Hk & Hid);
    exists f, k; auto.
Qed.

(** ** One turn of the commit loop *)

Lemma sum_commit_stats_cons (commit : pyval) (commits : list pyval)
    (total_additions total_deletions : Z) :
  sum_commit_stats (commit :: commits) total_additions total_deletions =
  (delta <- commit_delta commit;;
   sum_commit_stats commits (total_additions + fst delta) (total_deletions + snd delta)).
Proof.
  cbn [sum_commit_stats]. unfold commit_delta.
  destruct commit as [|b|z|s|l|d]; cbn [py_in bind]; try reflexivity.
  - destruct (occurs_in "stats" s); cbn [bind py_getitem fst snd];
      [reflexivity | rewrite !Z.add_0_r; reflexivity].
  - destruct (existsb (is_str "stats") l); cbn [bind py_getitem fst snd];
      [reflexivity | rewrite !Z.add_0_r; reflexivity].
  - cbn [py_getitem]. destruct (dict_lookup "stats" d) as [stats|] eqn:Es.
    + rewrite bool_decide_eq_true_2 by eauto. cbn [bind].
      destruct stats as [|b|z|s|l|st]; cbn [bind py_get fst snd];
        try reflexivity; [rewrite !Z.add_0_r; reflexivity|].
      destruct (default (PyInt 0) (dict_lookup "additions" st)) as [|x|x| | |];
        cbn [py_add_int bind]; try reflexivity;
        destruct (default (PyInt 0) (dict_lookup "deletions" st)) as [|y|y| | |];
        cbn [py_add_int bind fst snd]; rewrite ?Z.add_0_l; reflexivity.
    + rewrite bool_decide_eq_false_2 by (intros [? ?]; discriminate).
      cbn [bind fst snd]. rewrite !Z.add_0_r. reflexivity.
Qed.

Lemma sum_commit_stats_shift (commits : list pyval) :
  forall total_additions total_deletions : Z,
    sum_commit_stats commits total_additions total_deletions =
    (totals <- sum_commit_stats commits 0 0;;
     Ok (total_additions + fst totals, total_deletions + snd totals)).
Proof.
  induction commits as [|commit commits IH]; intros a d.
  - cbn. rewrite !Z.add_0_r. reflexivity.
  - rewrite !sum_commit_stats_cons.
    destruct (commit_delta commit) as [[x y]|e]; [|reflexivity].
    cbn [bind fst snd]. rewrite (IH (a + x) (d + y)), (IH (0 + x) (0 + y)).
    destruct (sum_commit_stats commits 0 0) as [[u v]|e]; [|reflexivity].
    cbn [bind fst snd]. f_equal. f_equal; lia.
Qed.

Lemma sum_commit_stats_app (commits1 commits2 : list pyval) :
  forall total_additions total_deletions : Z,
    sum_commit_stats (commits1 ++ commits2) total_additions total_deletions =
    (totals <- sum_commit_stats commits1 total_additions total_deletions;;
     sum_commit_stats commits2 (fst totals) (snd totals)).
Proof.
  induction commits1 as [|commit commits1 IH]; intros a d; [reflexivity|].
  cbn [app]. rewrite !sum_commit_stats_cons.
  destruct (commit_delta commit) as [[x y]|e]; [|reflexivity].
  cbn [bind]. apply IH.
Qed.

(** X11.  The sums of a list of commits are those of a first part plus
    those of the rest. *)
Theorem loc_of_commits_adds_up (commits1 commits2 : list pyval) (loc1 loc2 : Loc.t) :
  loc_of_commits (PyList commits1) = Ok loc1 ->
  loc_of_commits (PyList commits2) = Ok loc2 ->
  loc_of_commits (PyList (commits1 ++ commits2)) =
  Ok {| Loc.Total_LOC_Change := Loc.Total_LOC_Change loc1 + Loc.Total_LOC_Change loc2;
        Loc.Additions := Loc.Additions loc1 + Loc.Additions loc2;
        Loc.Deletions := Loc.Deletions loc1 + Loc.Deletions loc2 |}.
Proof.
  unfold loc_of_commits. cbn [py_iter bind]. intros H1 H2.
  rewrite sum_commit_stats_app.
  destruct (sum_commit_stats commits1 0 0) as [[a1 d1]|]; [|discriminate].
  cbn [bind fst snd] in H1 |- *. injection H1 as <-.
  rewrite sum_commit_stats_shift.
  destruct (sum_commit_stats commits2 0 0) as [[a2 d2]|]; [|discriminate].
  cbn [bind fst snd] in H2 |- *. injection H2 as <-.
  cbn. f_equal. f_equal. lia.
Qed.

Lemma commit_delta_raises (commits1 commits2 : list pyval) (commit : pyval) (e : exn) :
  forallb commit_ok commits1 = true ->
  commit_delta commit = Raise e ->
  loc_of_commits (PyList (commits1 ++ commit :: commits2)) = Raise e.
Proof.
  intros Hok He. unfold loc_of_commits. cbn [py_iter bind].
  rewrite sum_commit_stats_app, (sum_commit_stats_spec commits1 Hok). cbn [bind].
  rewrite sum_commit_stats_cons, He. reflexivity.
Qed.

(** X12.  A commit whose [stats] is neither null nor an object raises
    AttributeError at [.get]. *)
Theorem stats_that_is_no_object_raises (commits1 commits2 : list pyval)
    (d : list (string * pyval)) (stats : pyval) :
  forallb commit_ok commits1 = true ->
  dict_lookup "stats" d = Some stats ->
  stats <> PyNone ->
  (forall st, stats <> PyDict st) ->
  loc_of_commits (PyList (commits1 ++ PyDict d :: commits2)) = Raise AttributeError.
Proof.
  intros Hok Hs Hnone Hdict. apply (commit_delta_raises _ _ _ _ Hok).
  cbn [commit_delta]. rewrite Hs.
  destruct stats as [| | | | |st]; try reflexivity.
  - destruct (Hnone eq_refl).
  - destruct (Hdict st eq_refl).
Qed.

(** X13.  A count that is there and null raises TypeError: the default 0
    of [.get] stands for an absent key only. *)
Theorem null_count_raises (commits1 commits2 : list pyval)
    (d st : list (string * pyval)) (key : string) :
  forallb commit_ok commits1 = true ->
  dict_lookup "stats" d = Some (PyDict st) ->
  key = "additions" \/ key = "deletions" ->
  dict_lookup key st = Some PyNone ->
  loc_of_commits (PyList (commits1 ++ PyDict d :: commits2)) = Raise TypeError.
Proof.
  intros Hok Hs Hkey Hnull. apply (commit_delta_raises _ _ _ _ Hok).
  cbn [commit_delta]. rewrite Hs. destruct Hkey as [-> | ->]; rewrite Hnull.
  - reflexivity.
  - destruct (default (PyInt 0) (dict_lookup "additions" st)); reflexivity.
Qed.

(** ** Values that are no array of commits *)

Lemma no_stats_in_a_character (c : ascii) : occurs_in "stats" (String c EmptyString) = false.
Proof.
  cbn [occurs_in starts_with]. destruct (Ascii.eqb "s" c); reflexivity.
Qed.

Lemma sum_commit_stats_characters (l : list ascii) (total_additions total_deletions : Z) :
  sum_commit_stats (map (fun c => PyStr (String c EmptyString)) l)
    total_additions total_deletions = Ok (total_additions, total_deletions).
Proof.
  induction l as [|c l IH]; [reflexivity|].
  cbn [map]. rewrite sum_commit_stats_cons. cbn [commit_delta].
  rewrite no_stats_in_a_character. cbn [bind fst snd].
  rewrite !Z.add_0_r. exact IH.
Qed.

(** X14.  A string or an empty object in the place of the array of commits
    is taken without an exception and gives the zero sums; null, a number
    or a boolean raises TypeError. *)
Theorem commits_that_are_no_array :
  (forall s, loc_of_commits (PyStr s) = Ok zero_loc) /\
  loc_of_commits (PyDict []) = Ok zero_loc /\
  loc_of_commits PyNone = Raise TypeError /\
  (forall z, loc_of_commits (PyInt z) = Raise TypeError) /\
  (forall b, loc_of_commits (PyBool b) = Raise TypeError).
Proof.
  repeat split.
  intros s. unfold loc_of_commits. cbn [py_iter bind].
  rewrite sum_commit_stats_characters. reflexivity.
Qed.

(** ** The keys of [pr_loc_data] *)

Lemma calc_loc_keys (items : list (string * pyval)) :
  forall (m m' : gmap string Loc.t) (pr_id : string),
    calc_loc items m = Ok m' ->
    (is_Some (m' !! pr_id) <->
     is_Some (m !! pr_id) \/ In pr_id (map (fun kv => pr_id_of (fst kv)) items)).
Proof.
  induction items as [|[k v] items IH]; intros m m' pr_id H.
  - injection H as <-. cbn. tauto.
  - cbn [calc_loc] in H. bind_inv H. rewrite (IH _ _ pr_id H).
    cbn [map In fst]. rewrite lookup_insert_is_Some.
    destruct (decide (pr_id_of k = pr_id)); tauto.
Qed.

(** X15.  The keys of [pr_loc_data] are the PR_IDs of the keys of the
    commit-details file, also of those with no commit. *)
Theorem pr_loc_data_keys (f : kvstream) (pr_loc_data : gmap string Loc.t)
    (pr_id : string) :
  load_loc (Some f) = Ok pr_loc_data ->
  (is_Some (pr_loc_data !! pr_id) <->
   In pr_id (map (fun kv => pr_id_of (fst kv)) (yielded f))).
Proof.
  cbn [load_loc]. intros H. bind_inv H.
  destruct (ending f); [discriminate|]. injection H as <-.
  rewrite (calc_loc_keys _ _ _ pr_id Ha), lookup_empty.
  split; [intros [[? H]|H]; [discriminate | exact H] | auto].
Qed.

(** ** An exception of the commit loop *)

Lemma calc_loc_raises (items1 items2 : list (string * pyval)) (pr_filename : string)
    (commits : pyval) (m0 m1 : gmap string Loc.t) (e : exn) :
  calc_loc items1 m0 = Ok m1 ->
  loc_of_commits commits = Raise e ->
  calc_loc (items1 ++ (pr_filename, commits) :: items2) m0 = Raise e.
Proof.
  intros H1 He. rewrite calc_loc_app, H1. cbn [bind calc_loc]. rewrite He. reflexivity.
Qed.

(** X16.  An exception raised for the commits of a key, after the keys in
    front of it went through, leaves [process_agent_data] as it is: the
    comments of the agent are not extracted. *)
Theorem exception_of_a_commit_leaves_the_agent (py_repr : pyval -> string)
    (agent_name : string) (agent : agent_dir) (f : kvstream)
    (items1 items2 : list (string * pyval)) (pr_filename : string) (commits : pyval)
    (m1 : gmap string Loc.t) (e : exn) :
  pr_commit_details_json agent = Some f ->
  yielded f = items1 ++ (pr_filename, commits) :: items2 ->
  calc_loc items1 ∅ = Ok m1 ->
  loc_of_commits commits = Raise e ->
  process_agent_data py_repr agent_name agent = Raise e.
Proof.
  intros Hf Hy H1 He. unfold process_agent_data. rewrite Hf. cbn [load_loc].
  rewrite Hy, (calc_loc_raises items1 items2 pr_filename commits ∅ m1 e H1 He).
  reflexivity.
Qed.

(** ** Counts that are not negative *)

Lemma spec_sum_nonneg (commits : list pyval) :
  forallb commit_ok commits = true ->
  forallb commit_nonneg commits = true ->
  0 <= spec_sum "additions" commits /\ 0 <= spec_sum "deletions" commits.
Proof.
  induction commits as [|commit commits IH]; intros Hok Hnn; [cbn; lia|].
  cbn [forallb] in Hok, Hnn.
  apply andb_prop in Hok as [Hc Hok]. apply andb_prop in Hnn as [Hn Hnn].
  destruct (IH Hok Hnn) as [IHa IHd]. cbn [spec_sum].
  unfold commit_nonneg in Hn.
  destruct (commit_stats commit) as [stats|]; [|auto].
  destruct stats as [| | | | |st]; cbn [stat_count]; try lia.
  apply andb_prop in Hn as [Ha Hd].
  destruct (dict_lookup "additions" st) as [[| |x| | |]|];
    destruct (dict_lookup "deletions" st) as [[| |y| | |]|];
    cbn [count_nonneg] in Ha, Hd; lia.
Qed.

(** X17.  When no count of the commits is negative, Additions and Deletions
    are between 0 and Total_LOC_Change. *)
Theorem loc_of_nonnegative_counts (commits : list pyval) :
  forallb commit_ok commits = true ->
  forallb commit_nonneg commits = true ->
  exists loc,
    loc_of_commits (PyList commits) = Ok loc /\
    0 <= Loc.Additions loc <= Loc.Total_LOC_Change loc /\
    0 <= Loc.Deletions loc <= Loc.Total_LOC_Change loc.
Proof.
  intros Hok Hnn. rewrite (loc_of_commits_spec commits Hok).
  destruct (spec_sum_nonneg commits Hok Hnn) as [Ha Hd].
  eexists. split; [reflexivity|]. cbn. lia.
Qed.

(** ** What [replace] leaves of a file name *)

Lemma pr_id_of_length_le (n : nat) :
  forall s : string,
    (String.length s <= n)%nat ->
    (String.length (pr_id_of s) <= String.length s)%nat /\
    (occurs_in ".json" s = true ->
     (String.length (pr_id_of s) < String.length s)%nat).
Proof.
  unfold pr_id_of.
  induction n as [|n IH]; intros s Hn.
  - destruct s; [|cbn in Hn; lia]. split; [reflexivity | discriminate].
  - destruct s as [|c s]; [split; [reflexivity | discriminate]|].
    destruct (starts_with ".json" (String c s)) eqn:E.
    + destruct (starts_with_inv _ _ E) as [t Ht]. rewrite Ht.
      rewrite (str_replace_match "." "json" "" t).
      change ("" +:+ str_replace ".json" "" t) with (str_replace ".json" "" t).
      assert (Hlen : String.length (".json" +:+ t) = S (S (S (S (S (String.length t))))))
        by reflexivity.
      rewrite Hlen. rewrite Ht, Hlen in Hn.
      destruct (IH t ltac:(lia)) as [Hle _]. split; [lia | intros _; lia].
    + rewrite (str_replace_no_match "." c "json" "" s E).
      cbn [String.length] in Hn |- *.
      destruct (IH s ltac:(lia)) as [Hle Hlt].
      change (occurs_in ".json" (String c s))
        with (starts_with ".json" (String c s) || occurs_in ".json" s).
      rewrite E. cbn [orb]. split; [lia | intros H; specialize (Hlt H); lia].
Qed.

(** X18.  The PR_ID is never longer than the file name, and it is the file
    name itself exactly when ".json" does not occur in it. *)
Theorem pr_id_of_unchanged_iff (pr_filename : string) :
  (String.length (pr_id_of pr_filename) <= String.length pr_filename)%nat /\
  (pr_id_of pr_filename = pr_filename <-> occurs_in ".json" pr_filename = false).
Proof.
  destruct (pr_id_of_length_le (String.length pr_filename) pr_filename (le_n _))
    as [Hle Hlt].
  split; [exact Hle|]. split.
  - intros Heq. destruct (occurs_in ".json" pr_filename); [|reflexivity].
    specialize (Hlt eq_refl). rewrite Heq in Hlt. lia.
  - apply pr_id_of_keeps.
Qed.

(** ** The batch *)

Lemma process_agents_rows (py_repr : pyval -> string)
    (agent_dirs : list (string * agent_dir)) (rowss : list (list Row.t)) :
  rows_per_agent py_repr agent_dirs rowss ->
  forall all_data out,
  exists out',
    process_agents py_repr agent_dirs all_data out = Ok (all_data ++ concat rowss, out').
Proof.
  induction 1 as [|[agent_name agent] rows agent_dirs rowss Ha _ IH]; intros all_data out.
  - exists out. cbn. rewrite app_nil_r. reflexivity.
  - cbn [process_agents]. cbn [fst snd] in Ha. rewrite Ha. cbn [bind concat].
    rewrite app_assoc. apply IH.
Qed.

(** X19.  When every agent directory is processed without an exception,
    [main] returns; it writes the rows of the agents one after the other
    in the order of the listing, plain files left out, and writes no file
    when there is no row. *)
Theorem main_writes_rows_in_agent_order (py_repr : pyval -> string)
    (listing : list (string * dir_entry)) (rowss : list (list Row.t)) :
  rows_per_agent py_repr (agent_dirs_of listing) rowss ->
  exists out,
    main py_repr (Some listing) =
    Ok {| printed := out;
          output_csv := match concat rowss with
                        | [] => None
                        | _ :: _ => Some (concat rowss)
                        end |}.
Proof.
  intros H. cbn [main].
  destruct (agent_dirs_of listing) as [|a agent_dirs] eqn:E.
  - inversion H. subst. cbn. eauto.
  - destruct (process_agents_rows py_repr _ _ H []
                ([msg_start] ++ ["Found " +:+ pretty (length (a :: agent_dirs))
                                   +:+ " agent directories in '" +:+ BASE_DIR +:+ "'."]))
      as [out' ->].
    cbn [bind fst snd app]. destruct (concat rowss); eauto.
Qed.

Lemma process_agents_raises (py_repr : pyval -> string)
    (agent_dirs1 agent_dirs2 : list (string * agent_dir))
    (agent_name : string) (agent : agent_dir) (e : exn) :
  Forall (fun na => exists rows, process_agent_data py_repr (fst na) (snd na) = Ok rows)
         agent_dirs1 ->
  process_agent_data py_repr agent_name agent = Raise e ->
  forall all_data out,
    process_agents py_repr (agent_dirs1 ++ (agent_name, agent) :: agent_dirs2)
      all_data out = Raise e.
Proof.
  intros H1 He. induction H1 as [|[n a] agent_dirs1 [rows Hn] _ IH]; intros all_data out.
  - cbn [app process_agents]. rewrite He. reflexivity.
  - cbn [app process_agents]. cbn [fst snd] in Hn. rewrite Hn. cbn [bind]. apply IH.
Qed.

(** X20.  The exception of the first agent directory that raises leaves
    [main]: no file is written, also not for the rows of the agents
    processed before. *)
Theorem first_exception_of_an_agent_leaves_main (py_repr : pyval -> string)
    (listing : list (string * dir_entry))
    (agent_dirs1 agent_dirs2 : list (string * agent_dir))
    (agent_name : string) (agent : agent_dir) (e : exn) :
  agent_dirs_of listing = agent_dirs1 ++ (agent_name, agent) :: agent_dirs2 ->
  Forall (fun na => exists rows, process_agent_data py_repr (fst na) (snd na) = Ok rows)
         agent_dirs1 ->
  process_agent_data py_repr agent_name agent = Raise e ->
  main py_repr (Some listing) = Raise e.
Proof.
  intros Hl H1 He. cbn [main]. rewrite Hl.
  destruct (agent_dirs1 ++ (agent_name, agent) :: agent_dirs2) as [|a l] eqn:E.
  - destruct agent_dirs1; discriminate E.
  - rewrite <- E. rewrite (process_agents_raises py_repr _ _ _ _ _ H1 He). reflexivity.
Qed.

(** ** The further properties at sample inputs *)

Lemma user_fields_default_to_sentinel_witness :
  exists e,
    extract_entry no_repr "PR_Comment" "42" (PyDict entry_of_bob) = Ok e /\
    Entry.User_Login e = PyStr "bob" /\ Entry.User_Type e = PyStr "N/A".
Proof.
  destruct (user_fields_default_to_sentinel no_repr "PR_Comment" "42" entry_of_bob
              [("login", PyStr "bob")] eq_refl) as (e & He & _ & _ & Hl & Ht).
  exists e. repeat split; assumption.
Defined.

Lemma user_that_is_no_object_raises_witness :
  user_object entry_with_user_name = None /\
  extract_entry no_repr "PR_Comment" "42" (PyDict entry_with_user_name) =
  Raise AttributeError.
Proof.
  split; [reflexivity|].
  apply (user_that_is_no_object_raises no_repr "PR_Comment" "42" entry_with_user_name).
  reflexivity.
Defined.

Lemma body_kept_outside_review_summary_witness :
  exists e,
    extract_entry no_repr "Review_Comment" "42" (PyDict entry_with_state) = Ok e /\
    Entry.Comment_Body e = PyStr "".
Proof.
  eexists. split; [vm_compute; reflexivity|].
  apply (body_kept_outside_review_summary no_repr "Review_Comment" "42" entry_with_state).
  - discriminate.
  - vm_compute. reflexivity.
Defined.

Lemma extraction_stops_at_first_fault_witness :
  map Entry.PR_ID
      (_extract_comments_with_details no_repr (Some comments_with_fault) "PR_Comment")
  = ["1"].
Proof.
  rewrite (extraction_stops_at_first_fault no_repr "PR_Comment" comments_with_fault).
  - reflexivity.
  - repeat constructor; eexists; reflexivity.
Defined.

Lemma value_that_is_not_iterable_ends_extraction_witness :
  map Entry.PR_ID
      (_extract_comments_with_details no_repr (Some comments_with_null) "PR_Comment")
  = ["1"].
Proof.
  rewrite (value_that_is_not_iterable_ends_extraction no_repr "PR_Comment"
             comments_with_null [("1.json", PyList [PyDict entry_of_bob])]
             [("3.json", PyList [PyDict entry_of_bob])] "2.json" PyNone TypeError
             eq_refl eq_refl).
  reflexivity.
Defined.

Lemma one_row_per_entry_witness :
  Forall2 (row_copies_entry "gamma") (all_comments_and_reviews no_repr gamma)
          [gamma_row_42; gamma_row_7].
Proof.
  apply (one_row_per_entry no_repr "gamma" gamma). vm_compute. reflexivity.
Defined.

Lemma merged_values_of_known_pr_witness :
  exists r,
    process_agent_data no_repr "alpha" alpha = Ok [r] /\
    Row.Total_LOC_Change r = 12 /\ Row.Additions r = 10 /\ Row.Deletions r = 2 /\
    Row.Task_Type r = "bugfix".
Proof.
  eexists. split; [vm_compute; reflexivity|].
  match goal with |- Row.Total_LOC_Change ?r = _ /\ _ =>
    destruct (merged_values_of_known_pr no_repr "alpha" alpha
                {[ "42" := {| Loc.Total_LOC_Change := 12; Loc.Additions := 10;
                              Loc.Deletions := 2 |} ]} [r] r)
      as [Hloc Htask]
  end.
  - vm_compute. reflexivity.
  - vm_compute. reflexivity.
  - left. reflexivity.
  - destruct (Hloc {| Loc.Total_LOC_Change := 12; Loc.Additions := 10;
                      Loc.Deletions := 2 |}) as (Ht & Ha & Hd);
      [vm_compute; reflexivity|].
    split; [exact Ht|]. split; [exact Ha|]. split; [exact Hd|].
    apply Htask. vm_compute. reflexivity.
Defined.

Lemma rows_of_one_pr_agree_witness :
  exists rows r1 r2,
    process_agent_data no_repr "delta" delta = Ok rows /\
    nth_error rows 0 = Some r1 /\ nth_error rows 4 = Some r2 /\
    Row.PR_ID r1 = "2" /\ Row.PR_ID r2 = "2" /\
    Row.Task_Type r1 = Row.Task_Type r2 /\
    Row.Total_LOC_Change r1 = Row.Total_LOC_Change r2.
Proof.
  do 3 eexists. split; [vm_compute; reflexivity|].
  split; [reflexivity|]. split; [reflexivity|].
  split; [reflexivity|]. split; [reflexivity|].
  match goal with |- Row.Task_Type ?r1 = Row.Task_Type ?r2 /\ _ =>
    destruct (rows_of_one_pr_agree no_repr "delta" delta _ r1 r2
                ltac:(vm_compute; reflexivity)) as (Ht & Hl & _)
  end.
  - left. reflexivity.
  - do 4 right. left. reflexivity.
  - reflexivity.
  - split; assumption.
Defined.

Lemma row_pr_id_comes_from_a_comments_key_witness :
  exists f pr_filename,
    (pr_comments_json gamma = Some f \/
     pr_review_comments_json gamma = Some f \/
     pr_reviews_json gamma = Some f) /\
    In pr_filename (map fst (yielded f)) /\
    Row.PR_ID gamma_row_7 = pr_id_of pr_filename.
Proof.
  apply (row_pr_id_comes_from_a_comments_key no_repr "gamma" gamma
           [gamma_row_42; gamma_row_7]).
  - vm_compute. reflexivity.
  - right. left. reflexivity.
Defined.

Lemma loc_of_commits_adds_up_witness :
  loc_of_commits (PyList (sample_commits ++ sample_commits)) =
  Ok {| Loc.Total_LOC_Change := 34; Loc.Additions := 30; Loc.Deletions := 4 |}.
Proof.
  rewrite (loc_of_commits_adds_up sample_commits sample_commits
             {| Loc.Total_LOC_Change := 17; Loc.Additions := 15; Loc.Deletions := 2 |}
             {| Loc.Total_LOC_Change := 17; Loc.Additions := 15; Loc.Deletions := 2 |}
             eq_refl eq_refl).
  reflexivity.
Defined.

Lemma stats_that_is_no_object_raises_witness :
  loc_of_commits (PyList (sample_commits ++ [PyDict [("stats", PyInt 5)]])) =
  Raise AttributeError.
Proof.
  apply (stats_that_is_no_object_raises sample_commits [] [("stats", PyInt 5)] (PyInt 5)).
  - reflexivity.
  - reflexivity.
  - discriminate.
  - discriminate.
Defined.

Lemma null_count_raises_witness :
  loc_of_commits
    (PyList (sample_commits ++ [PyDict [("stats", PyDict [("additions", PyNone)])]])) =
  Raise TypeError.
Proof.
  apply (null_count_raises sample_commits []
           [("stats", PyDict [("additions", PyNone)])] [("additions", PyNone)]
           "additions").
  - reflexivity.
  - reflexivity.
  - left. reflexivity.
  - reflexivity.
Defined.

Lemma pr_loc_data_keys_witness :
  exists m,
    load_loc (Some details_of_42_twice) = Ok m /\
    is_Some (m !! "42") /\ is_Some (m !! "7") /\ ~ is_Some (m !! "42.json").
Proof.
  eexists. split; [vm_compute; reflexivity|].
  split; [|split].
  - apply (pr_loc_data_keys details_of_42_twice _ "42"
             ltac:(vm_compute; reflexivity)).
    left. reflexivity.
  - apply (pr_loc_data_keys details_of_42_twice _ "7"
             ltac:(vm_compute; reflexivity)).
    do 2 right. left. reflexivity.
  - intros H.
    apply (pr_loc_data_keys details_of_42_twice _ "42.json"
             ltac:(vm_compute; reflexivity)) in H.
    vm_compute in H. intuition discriminate.
Defined.

Lemma exception_of_a_commit_leaves_the_agent_witness :
  process_agent_data no_repr "zeta" zeta = Raise TypeError.
Proof.
  eapply (exception_of_a_commit_leaves_the_agent no_repr "zeta" zeta _
            [("1.json", commits_12)] [("3.json", commits_2)] "2.json" PyNone).
  - reflexivity.
  - reflexivity.
  - vm_compute. reflexivity.
  - reflexivity.
Defined.

Lemma loc_of_nonnegative_counts_witness :
  exists loc,
    loc_of_commits (PyList sample_commits) = Ok loc /\
    0 <= Loc.Additions loc <= Loc.Total_LOC_Change loc /\
    0 <= Loc.Deletions loc <= Loc.Total_LOC_Change loc.
Proof.
  apply (loc_of_nonnegative_counts sample_commits); reflexivity.
Defined.

Lemma main_writes_rows_in_agent_order_witness :
  exists out rows,
    main no_repr (Some listing_of_two) = Ok {| printed := out; output_csv := Some rows |} /\
    map Row.Agent rows = ["alpha"; "delta"; "delta"; "delta"; "delta"; "delta"].
Proof.
  assert (H : exists rowss,
             rows_per_agent no_repr (agent_dirs_of listing_of_two) rowss /\
             map Row.Agent (concat rowss) =
             ["alpha"; "delta"; "delta"; "delta"; "delta"; "delta"]).
  { eexists. split.
    - change (agent_dirs_of listing_of_two) with [("alpha", alpha); ("delta", delta)].
      constructor; [vm_compute; reflexivity|].
      constructor; [vm_compute; reflexivity|]. constructor.
    - reflexivity. }
  destruct H as (rowss & Hrows & Hagents).
  destruct (main_writes_rows_in_agent_order no_repr listing_of_two rowss Hrows)
    as [out Hout].
  destruct (concat rowss) as [|r rows] eqn:E; [discriminate Hagents|].
  exists out, (r :: rows). split; assumption.
Defined.

Lemma first_exception_of_an_agent_leaves_main_witness :
  main no_repr (Some listing_with_beta) = Raise IncompleteJSONError.
Proof.
  apply (first_exception_of_an_agent_leaves_main no_repr listing_with_beta
           [("alpha", alpha)] [("delta", delta)] "beta" beta).
  - reflexivity.
  - constructor; [|constructor]. eexists. vm_compute. reflexivity.
  - vm_compute. reflexivity.
Defined.
